(** * RNN text classification on IMDB: a model of the notebook [RNN.ipynb]

    The notebook is a straight-line script over a deep-learning framework.
    Its own code is the sequence of framework calls and their arguments,
    spread over five code cells that share the kernel's global namespace.
    This development embeds

    - the framework functions the notebook calls, as executable functions
      (dataset loader, [pad_sequences], layer shapes and parameter counts,
      the [fit] loop with the [EarlyStopping] callback, [evaluate]);
    - the notebook itself, statement by statement, as actions of a small
      state-and-error monad over the kernel (global names, the model and
      callback objects, the record of framework calls and printed lines).

    Floating-point training is outside the model: the validation loss of
    each epoch and the test metrics are read from an oracle ([world]). *)

From Stdlib Require Import ZArith QArith Lia Lqa List Bool.
From stdpp Require Import list strings.

Local Open Scope Z_scope.

(** ** Framework: the dataset loader and the padding step *)

Module Keras.

(** This module holds the framework, not the repository: every function
    in it is a model of what the framework does when the notebook calls
    it, with the defaults of the arguments the notebook leaves out. *)

(** The loader's defaults for the arguments the notebook does not pass. *)
Definition skip_top : Z := 0.
Definition start_char : Z := 1.
Definition oov_char : Z := 2.
Definition index_from : Z := 3.

(** Modelled from the spec: [imdb.load_data] is a framework function, not
    code of the repository.  Every review gets the start marker in front
    and every stored word index is shifted by [index_from]. *)
Definition shift_review (x : list Z) : list Z :=
  start_char :: map (fun w => w + index_from) x.

(** Modelled from the spec: part of [imdb.load_data], a framework
    function.  An index outside [skip_top <= w < num_words] is replaced
    by [oov_char]. *)
Definition clip_word (num_words w : Z) : Z :=
  if (skip_top <=? w) && (w <? num_words) then w else oov_char.

(** Modelled from the spec: [imdb.load_data] is a framework function, not
    code of the repository.  The reviews of a split, shifted and then
    clipped to the vocabulary.  The loader's seeded shuffle is taken to be
    part of the order of the file. *)
Definition load_reviews (num_words : Z) (file : list (list Z)) : list (list Z) :=
  map (fun x => map (clip_word num_words) (shift_review x)) file.

(** Python's [s[-n:]] for [n > 0]: the last [n] elements, the whole list
    when it is shorter. *)
Definition last_n {A} (n : nat) (s : list A) : list A :=
  skipn (length s - n)%nat s.

(** The padding value when [value] is not passed. *)
Definition pad_value : Z := 0.

(** Modelled from the spec: [sequence.pad_sequences] is a framework
    function, not code of the repository; the spec calls the step
    pad/truncate.  The notebook passes [maxlen] only, so the framework's
    defaults apply: [padding='pre'], [truncating='pre'], [value=0].  The
    result array is created full of [value] with [maxlen] columns; an
    empty sequence leaves its row as created; any other sequence is cut
    to its last [maxlen] elements and written at the end of its row. *)
Definition pad_row (maxlen : nat) (s : list Z) : list Z :=
  match s with
  | [] => repeat pad_value maxlen
  | _ =>
      let trunc := last_n maxlen s in
      repeat pad_value (maxlen - length trunc)%nat ++ trunc
  end.

(** A two-dimensional integer array: the column count is part of the
    array (an array with no rows still has a shape). *)
Record ndarray := mk_ndarray { nd_cols : nat; nd_rows : list (list Z) }.

Definition shape (a : ndarray) : Z * Z :=
  (Z.of_nat (length (nd_rows a)), Z.of_nat (nd_cols a)).

Inductive error :=
| NameError (name : string)
| TypeError (what : string)
| ValueError (what : string)
| IndexError (what : string).

Definition result (A : Type) : Type := error + A.

(** Modelled from the spec: [sequence.pad_sequences], a framework
    function, on a list of sequences.  [maxlen < 0] cannot size the
    array; with [maxlen = 0] the slice [s[-0:]] is the whole sequence,
    which does not fit a row of width 0.  The cast of the entries to
    [int32] is left out: it is the identity on the indices the loader
    returns. *)
Definition pad_sequences (sequences : list (list Z)) (maxlen : Z) : result ndarray :=
  if maxlen <? 0 then inl (ValueError "negative dimensions are not allowed")
  else if (maxlen =? 0) && existsb (fun s => negb (length s =? 0)%nat) sequences
  then inl (ValueError "could not broadcast input array")
  else inr (mk_ndarray (Z.to_nat maxlen) (map (pad_row (Z.to_nat maxlen)) sequences)).

(** ** Framework: layers, shapes and parameter counts *)

Inductive rnn_kind := SimpleRNN | LSTM | GRU.

Inductive activation := Linear | Sigmoid.

(** The layers the notebook instantiates, with the constructor arguments
    it passes.  [Recurrent k units return_sequences] is the call
    [k(units, return_sequences=...)]. *)
Inductive layer :=
| InputLayer (input_shape : list Z)
| Embedding (input_dim output_dim : Z)
| Recurrent (cell : rnn_kind) (units : Z) (return_sequences : bool)
| Attention
| Flatten
| Dense (units : Z) (act : activation).

(** A layer applied to the outputs of earlier nodes of the graph. *)
Record node := mk_node { n_layer : layer; n_inputs : list nat }.

(** [Sequential] is a stack without a declared input: it takes its input
    shape from the first batch it sees.  [Functional] is
    [Model(inputs=..., outputs=...)] over an explicit graph. *)
Inductive architecture :=
| Sequential (layers : list layer)
| Functional (nodes : list node) (input output : nat).

Definition split_last {A} (s : list A) : option (list A * A) :=
  match rev s with
  | [] => None
  | d :: r => Some (rev r, d)
  end.

(** Modelled from the spec: the framework's shape rules, not code of the
    repository.  Shapes leave the batch dimension out.  [Attention] takes
    [[query; value]] and returns one value-sized vector per query step. *)
Definition layer_output_shape (l : layer) (ins : list (list Z)) : option (list Z) :=
  match l, ins with
  | InputLayer s, [] => Some s
  | Embedding _ d, [s] => Some (s ++ [d])
  | Recurrent _ u rs, [[t; _]] => Some (if rs then [t; u] else [u])
  | Attention, [[tq; dq]; [_; dv]] => if dq =? dv then Some [tq; dv] else None
  | Flatten, [s] => Some [fold_right Z.mul 1 s]
  | Dense u _, [s] =>
      match split_last s with
      | Some (r, _) => Some (r ++ [u])
      | None => None
      end
  | _, _ => None
  end.

(** Modelled from the spec: the framework's weight shapes, not code of
    the repository.  An embedding holds one [output_dim] vector per index;
    a recurrent layer holds, per gate, a kernel over the input, a kernel
    over the state and a bias (one gate for SimpleRNN, four for LSTM,
    three for GRU, whose default [reset_after] doubles the bias); a dense
    layer holds a kernel and a bias; the others hold no weights. *)
Definition layer_params (l : layer) (ins : list (list Z)) : option Z :=
  match l, ins with
  | InputLayer _, [] => Some 0
  | Embedding n d, [_] => Some (n * d)
  | Recurrent SimpleRNN u _, [[_; d]] => Some ((d + u) * u + u)
  | Recurrent LSTM u _, [[_; d]] => Some (4 * ((d + u) * u + u))
  | Recurrent GRU u _, [[_; d]] => Some (3 * ((d + u) * u + 2 * u))
  | Attention, [_; _] => Some 0
  | Flatten, [_] => Some 0
  | Dense u _, [s] =>
      match split_last s with
      | Some (_, d) => Some (d * u + u)
      | None => None
      end
  | _, _ => None
  end.

(** Modelled from the spec: the framework's weights, not code of the
    repository.  None of these layers holds a weight that training leaves
    alone, and the notebook never sets [trainable=False]. *)
Definition layer_non_trainable_params (l : layer) : Z := 0.

(** Modelled from the spec: how the framework builds a [Sequential]
    stack, each layer on the output of the one before. *)
Fixpoint chain (from : nat) (layers : list layer) : list node :=
  match layers with
  | [] => []
  | l :: rest => mk_node l [from] :: chain (S from) rest
  end.

(** Modelled from the spec: the graph the framework builds a model into.
    A [Sequential] stack becomes a chain under an input of the shape of
    the data it is first called on. *)
Definition graph_of (a : architecture) (data_shape : list Z) : list node * nat :=
  match a with
  | Sequential layers =>
      (mk_node (InputLayer data_shape) [] :: chain 0 layers, length layers)
  | Functional nodes _ output => (nodes, output)
  end.

(** One line of [summary()]: the layer, its output shape, its parameters. *)
Record summary_row := mk_row { r_layer : layer; r_shape : list Z; r_params : Z }.

(** Modelled from the spec: the table of the framework's [summary()],
    every node's shape and parameters from those of the nodes it is
    called on. *)
Fixpoint summary_rows (nodes : list node) (done : list summary_row)
  : option (list summary_row) :=
  match nodes with
  | [] => Some done
  | n :: rest =>
      match mapM (fun i => r_shape <$> done !! i) (n_inputs n) with
      | Some ins =>
          match layer_output_shape (n_layer n) ins, layer_params (n_layer n) ins with
          | Some s, Some p => summary_rows rest (done ++ [mk_row (n_layer n) s p])
          | _, _ => None
          end
      | None => None
      end
  end.

Record summary := mk_summary {
  s_rows : list summary_row;
  s_total : Z;
  s_trainable : Z;
  s_non_trainable : Z
}.

Definition sumZ (l : list Z) : Z := fold_right Z.add 0 l.

(** Modelled from the spec: the framework's [summary()], with its
    totals. *)
Definition summarize (a : architecture) (data_shape : list Z) : option summary :=
  match summary_rows (fst (graph_of a data_shape)) [] with
  | Some rows =>
      let total := sumZ (map r_params rows) in
      let frozen := sumZ (map (fun r => layer_non_trainable_params (r_layer r)) rows) in
      Some (mk_summary rows total (total - frozen) frozen)
  | None => None
  end.

(** The layer that produces the model's output, and the shape it has. *)
Definition final_layer (a : architecture) : option layer :=
  match a with
  | Sequential layers => last layers
  | Functional nodes _ output => n_layer <$> nodes !! output
  end.

Definition output_shape (a : architecture) (data_shape : list Z) : option (list Z) :=
  match summarize a data_shape with
  | Some s => r_shape <$> s_rows s !! snd (graph_of a data_shape)
  | None => None
  end.

(** ** Framework: compile, the training loop, early stopping, evaluate *)

Record compile_config := mk_compile {
  optimizer : string;
  loss : string;
  metrics : list string
}.

Record model := mk_model {
  m_arch : architecture;
  m_compiled : option compile_config;
  m_stop_training : bool;
  m_epochs_trained : nat
}.

(** What an epoch reports: the values by name ([loss], [val_loss], ...).
    The values are exact rationals: rounding, and a loss that is not a
    number, are outside the model. *)
Definition logs : Type := list (string * Q).

Definition logs_get (key : string) (l : logs) : option Q :=
  snd <$> find (fun kv => String.eqb (fst kv) key) l.

(** [x < y] on the values an epoch reports. *)
Definition Qltb (x y : Q) : bool := negb (Qle_bool y x).

(** The callback object.  [es_best = None] is the value [inf] the
    callback starts from: nothing has been seen yet. *)
Record EarlyStopping := mk_early_stopping {
  es_monitor : string;
  es_patience : nat;
  es_min_delta : Q;
  es_wait : nat;
  es_stopped_epoch : nat;
  es_best : option Q
}.

Definition new_EarlyStopping (monitor : string) (patience : nat) : EarlyStopping :=
  mk_early_stopping monitor patience 0 0 0 None.

(** Modelled from the spec: [EarlyStopping] is a framework class, not
    code of the repository.  With a monitored loss the comparison is
    [<], and a value improves when, raised by [min_delta], it is below
    the best one.  At the start of a [fit] the callback clears [wait];
    whether it also forgets [best] differs between releases of the
    framework ([resets_best]).  At the end of an epoch it counts the
    epoch, takes an improvement as the new best and clears the count,
    and otherwise asks the model to stop once the count has reached
    [patience], though never after the first epoch. *)
Definition is_improvement (cb : EarlyStopping) (current : Q) : bool :=
  match es_best cb with
  | None => true
  | Some b => Qltb (current + es_min_delta cb) b
  end.

(** Modelled from the spec: [EarlyStopping.on_train_begin], framework
    code.  The count of epochs without improvement is cleared; the best
    value is forgotten only by the releases that reset it. *)
Definition on_train_begin (resets_best : bool) (cb : EarlyStopping) : EarlyStopping :=
  mk_early_stopping (es_monitor cb) (es_patience cb) (es_min_delta cb) 0 0
    (if resets_best then None else es_best cb).

(** Modelled from the spec: [EarlyStopping.on_epoch_end], framework
    code.  The returned flag is the callback setting the model's
    [stop_training]. *)
Definition on_epoch_end (cb : EarlyStopping) (epoch : nat) (l : logs)
  : EarlyStopping * bool :=
  match logs_get (es_monitor cb) l with
  | None => (cb, false)
  | Some current =>
      let wait := S (es_wait cb) in
      if is_improvement cb current
      then (mk_early_stopping (es_monitor cb) (es_patience cb) (es_min_delta cb)
              0 (es_stopped_epoch cb) (Some current), false)
      else if (es_patience cb <=? wait)%nat && (0 <? epoch)%nat
      then (mk_early_stopping (es_monitor cb) (es_patience cb) (es_min_delta cb)
              wait epoch (es_best cb), true)
      else (mk_early_stopping (es_monitor cb) (es_patience cb) (es_min_delta cb)
              wait (es_stopped_epoch cb) (es_best cb), false)
  end.

(** Modelled from the spec: the framework's callback list at the start
    of a training.  The callbacks of a [fit] are objects of the kernel,
    named by their place in the store: a callback passed to several [fit]
    calls is the same object each time, and what one training leaves in
    it the next one finds. *)
Definition callbacks_on_train_begin (resets_best : bool) (refs : list nat)
    (store : list EarlyStopping) : list EarlyStopping :=
  fold_left (fun st r => alter (on_train_begin resets_best) r st) refs store.

(** Modelled from the spec: the framework's callback list at the end of
    an epoch; the model is asked to stop when any callback asks. *)
Definition callbacks_on_epoch_end (refs : list nat) (epoch : nat) (l : logs)
    (store : list EarlyStopping) : list EarlyStopping * bool :=
  fold_left
    (fun acc r =>
       match fst acc !! r with
       | Some cb =>
           let step := on_epoch_end cb epoch l in
           (<[r := fst step]> (fst acc), snd acc || snd step)
       | None => acc
       end)
    refs (store, false).

Record fit_result := mk_fit_result {
  fr_callbacks : list EarlyStopping;
  fr_history : list logs;
  fr_stopped : bool
}.

(** Modelled from the spec: the framework's epoch loop, not code of the
    repository: [for epoch in range(epochs)], train, validate, run the
    callbacks' [on_epoch_end], leave the loop when one of them asked the
    model to stop.  [logs_of epoch] is what the epoch reports. *)
Fixpoint fit_loop (logs_of : nat -> logs) (refs : list nat) (fuel epoch : nat)
    (store : list EarlyStopping) (history : list logs) : fit_result :=
  match fuel with
  | O => mk_fit_result store history false
  | S fuel' =>
      let l := logs_of epoch in
      let step := callbacks_on_epoch_end refs epoch l store in
      if snd step then mk_fit_result (fst step) (history ++ [l]) true
      else fit_loop logs_of refs fuel' (S epoch) (fst step) (history ++ [l])
  end.

(** Modelled from the spec: the names the framework reports for an epoch
    of a compiled model: the loss and the metrics, and the same on the
    validation data when there is some. *)
Definition log_keys (c : compile_config) (has_validation : bool) : list string :=
  let train_keys := "loss" :: metrics c in
  train_keys ++ (if has_validation then map (String.append "val_") train_keys else []).

(** Modelled from the spec: the framework's [fit] on one model, not code
    of the repository.  A [validation_split] other than zero sets
    validation data aside, so every epoch reports the validation values
    too; the callbacks are told the training begins, and the epochs run. *)
Definition train (resets_best : bool) (values : nat -> string -> Q)
    (c : compile_config) (epochs : Z) (validation_split : Q) (refs : list nat)
    (store : list EarlyStopping) : fit_result :=
  let has_validation := negb (Qeq_bool validation_split 0) in
  let logs_of := fun epoch => map (fun key => (key, values epoch key))
                                  (log_keys c has_validation) in
  fit_loop logs_of refs (Z.to_nat epochs) 0
    (callbacks_on_train_begin resets_best refs store) [].

(** Modelled from the spec: the framework's [evaluate], which returns
    the loss followed by the compiled metrics. *)
Definition evaluate_values (values : string -> Q) (c : compile_config) : list Q :=
  map values ("loss" :: metrics c).

End Keras.

(** ** The kernel: global names, objects, and the record of what ran *)

Module Kernel.
Import Keras.

(** What lies outside the program: the dataset file, the release of the
    framework, and the numbers training and evaluation produce.
    [epoch_value m e key] is what epoch [e] of training model [m] reports
    under [key]; [test_value m key] is what evaluating [m] reports. *)
Record world := mk_world {
  x_train_file : list (list Z);
  labels_train_file : list Z;
  x_test_file : list (list Z);
  labels_test_file : list Z;
  resets_best : bool;
  epoch_value : nat -> nat -> string -> Q;
  test_value : nat -> string -> Q
}.

Inductive func := BuildModel | BuildModel2.

Inductive value :=
| VInt (z : Z)
| VSeqs (l : list (list Z))
| VLabels (l : list Z)
| VArray (a : ndarray)
| VModel (ref : nat)
| VCallback (ref : nat)
| VHistory (h : list logs)
| VResults (r : list Q)
| VFunction (f : func).

(** A printed line, piece by piece; numbers are kept as numbers. *)
Inductive piece :=
| PStr (s : string)
| PInt (z : Z)
| PShape (s : Z * Z)
| PFloat (q : Q).

(** The framework calls and printed lines, in the order they happen.  A
    call is recorded when it returns, with what it was given and what it
    gave back. *)
Inductive event :=
| EvLoadData (num_words : Z)
| EvPadSequences (maxlen : Z) (out : ndarray)
| EvBuild (m : nat) (a : architecture)
| EvCompile (m : nat) (c : compile_config)
| EvSummary (m : nat) (s : option summary)
| EvFit (m : nat) (x : ndarray) (y : list Z) (epochs batch_size : Z)
        (validation_split : Q) (callbacks : list nat) (history : list logs)
| EvEvaluate (m : nat) (x : ndarray) (y : list Z) (results : list Q)
| EvPrint (line : list piece).

(** The global namespace: a dictionary in insertion order.  Assigning to
    a bound name replaces its value where it stands. *)
Definition namespace : Type := list (string * value).

Fixpoint ns_get (name : string) (ns : namespace) : option value :=
  match ns with
  | [] => None
  | (n, v) :: rest => if String.eqb n name then Some v else ns_get name rest
  end.

Fixpoint ns_set (name : string) (v : value) (ns : namespace) : namespace :=
  match ns with
  | [] => [(name, v)]
  | (n, v0) :: rest =>
      if String.eqb n name then (n, v) :: rest else (n, v0) :: ns_set name v rest
  end.

Record kernel := mk_kernel {
  globals : namespace;
  models : list model;
  callbacks : list EarlyStopping;
  log : list event
}.

Definition kernel0 : kernel := mk_kernel [] [] [] [].

(** State and errors: an action runs on a kernel and either raises or
    returns a value and the kernel it leaves. *)
Definition M (A : Type) : Type := kernel -> result (A * kernel).

#[export] Instance M_ret : MRet M := fun A a k => inr (a, k).

#[export] Instance M_bind : MBind M := fun A B f c k =>
  match c k with
  | inl e => inl e
  | inr (a, k') => f a k'
  end.

Definition raise {A} (e : error) : M A := fun _ => inl e.

Definition lift {A} (r : result A) : M A := fun k =>
  match r with
  | inl e => inl e
  | inr a => inr (a, k)
  end.

Definition get (name : string) : M value := fun k =>
  match ns_get name (globals k) with
  | Some v => inr (v, k)
  | None => inl (NameError name)
  end.

Definition set (name : string) (v : value) : M unit := fun k =>
  inr (tt, mk_kernel (ns_set name v (globals k)) (models k) (callbacks k) (log k)).

Definition emit (e : event) : M unit := fun k =>
  inr (tt, mk_kernel (globals k) (models k) (callbacks k) (log k ++ [e])).

Definition get_int (name : string) : M Z :=
  v ← get name; match v with VInt z => mret z | _ => raise (TypeError name) end.

Definition get_seqs (name : string) : M (list (list Z)) :=
  v ← get name; match v with VSeqs l => mret l | _ => raise (TypeError name) end.

Definition get_labels (name : string) : M (list Z) :=
  v ← get name; match v with VLabels l => mret l | _ => raise (TypeError name) end.

Definition get_array (name : string) : M ndarray :=
  v ← get name; match v with VArray a => mret a | _ => raise (TypeError name) end.

Definition get_model (name : string) : M nat :=
  v ← get name; match v with VModel r => mret r | _ => raise (TypeError name) end.

Definition get_callback (name : string) : M nat :=
  v ← get name; match v with VCallback r => mret r | _ => raise (TypeError name) end.

Definition get_results (name : string) : M (list Q) :=
  v ← get name; match v with VResults r => mret r | _ => raise (TypeError name) end.

Definition get_function (name : string) : M func :=
  v ← get name; match v with VFunction f => mret f | _ => raise (TypeError name) end.

(** [r[i]] on a list. *)
Definition index (r : list Q) (i : nat) : M Q :=
  match r !! i with
  | Some q => mret q
  | None => raise (IndexError "list index out of range")
  end.

Definition print (line : list piece) : M unit := emit (EvPrint line).

(** *** The framework's calls, as actions

    What each call does to the kernel is part of the model of the
    framework: which objects it creates or changes, what it returns, and
    the step it leaves in the record. *)

Section Calls.
Variable w : world.

(** Modelled from the spec: [imdb.load_data(num_words=...)], a framework
    call: the two splits of the file, the reviews passed through the
    loader, the labels as they are.  The loader also permutes each split,
    reviews and labels alike, with a seeded shuffle; that is not
    modelled, and the file of the world stands for the split as the
    loader returns it. *)
Definition imdb_load_data (num_words : Z)
  : M ((list (list Z) * list Z) * (list (list Z) * list Z)) :=
  emit (EvLoadData num_words);;
  mret ((load_reviews num_words (x_train_file w), labels_train_file w),
        (load_reviews num_words (x_test_file w), labels_test_file w)).

(** Modelled from the spec: [sequence.pad_sequences(sequences,
    maxlen=...)], a framework call; it raises what [pad_sequences]
    raises. *)
Definition sequence_pad_sequences (sequences : list (list Z)) (maxlen : Z) : M ndarray :=
  a ← lift (pad_sequences sequences maxlen);
  emit (EvPadSequences maxlen a);;
  mret a.

(** Modelled from the spec: the framework's model constructors
    ([Sequential([...])], [Model(inputs=..., outputs=...)]).  A new model
    object, not compiled yet; its reference is its place in the store. *)
Definition new_model (a : architecture) : M nat := fun k =>
  let m := length (models k) in
  inr (m, mk_kernel (globals k) (models k ++ [mk_model a None false 0]) (callbacks k)
            (log k ++ [EvBuild m a])).

(** Modelled from the spec: [model.compile(optimizer=..., loss=...,
    metrics=[...])], a framework call: the configuration is kept in the
    model object. *)
Definition compile (m : nat) (opt lss : string) (mets : list string) : M unit := fun k =>
  match models k !! m with
  | Some mo =>
      let c := mk_compile opt lss mets in
      inr (tt, mk_kernel (globals k)
                 (<[m := mk_model (m_arch mo) (Some c) (m_stop_training mo)
                                  (m_epochs_trained mo)]> (models k))
                 (callbacks k) (log k ++ [EvCompile m c]))
  | None => inl (ValueError "no such model")
  end.

(** Modelled from the spec: [model.summary()], a framework call; the
    table it prints is kept in the record. *)
Definition summary_ (m : nat) : M unit := fun k =>
  match models k !! m with
  | Some mo =>
      inr (tt, mk_kernel (globals k) (models k) (callbacks k)
                 (log k ++ [EvSummary m (summarize (m_arch mo) [])]))
  | None => inl (ValueError "no such model")
  end.

(** Modelled from the spec: [EarlyStopping(monitor=..., patience=...)],
    the framework's constructor: a new callback object in the store. *)
Definition EarlyStopping_ (monitor : string) (patience : nat) : M nat := fun k =>
  inr (length (callbacks k),
       mk_kernel (globals k) (models k)
         (callbacks k ++ [new_EarlyStopping monitor patience]) (log k)).

(** Modelled from the spec: [model.fit(x, y, epochs=..., batch_size=...,
    validation_split=..., callbacks=[...])], a framework call.  A model
    that was not compiled raises.  The arrays are read, not written; the
    model and the callbacks are the objects the training changes. *)
Definition fit (m : nat) (x : ndarray) (y : list Z) (epochs batch_size : Z)
    (validation_split : Q) (cbs : list nat) : M (list logs) := fun k =>
  match models k !! m with
  | Some mo =>
      match m_compiled mo with
      | Some c =>
          let r := train (resets_best w) (epoch_value w m) c epochs validation_split
                         cbs (callbacks k) in
          inr (fr_history r,
               mk_kernel (globals k)
                 (<[m := mk_model (m_arch mo) (Some c) (fr_stopped r)
                          (m_epochs_trained mo + length (fr_history r))]> (models k))
                 (fr_callbacks r)
                 (log k ++ [EvFit m x y epochs batch_size validation_split cbs
                                  (fr_history r)]))
      | None => inl (ValueError "You must call compile() before fit()")
      end
  | None => inl (ValueError "no such model")
  end.

(** Modelled from the spec: [model.evaluate(x, y)], a framework call.  A
    model that was not compiled raises; nothing is changed. *)
Definition evaluate (m : nat) (x : ndarray) (y : list Z) : M (list Q) := fun k =>
  match models k !! m with
  | Some mo =>
      match m_compiled mo with
      | Some c =>
          let r := evaluate_values (test_value w m) c in
          inr (r, mk_kernel (globals k) (models k) (callbacks k)
                    (log k ++ [EvEvaluate m x y r]))
      | None => inl (ValueError "You must call compile() before evaluate()")
      end
  | None => inl (ValueError "no such model")
  end.

End Calls.

(** A program is a list of statements; a statement that raises stops it. *)
Fixpoint exec (p : list (M unit)) (k : kernel) : result kernel :=
  match p with
  | [] => inr k
  | s :: rest =>
      match s k with
      | inl e => inl e
      | inr (_, k') => exec rest k'
      end
  end.

End Kernel.

(** ** The notebook *)

Module Notebook.
Import Keras Kernel.

Section Cells.
Variable w : world.

(** [def build_model(rnn_cell)]: the three-layer stack, compiled.
    [rnn_cell(32)] leaves [return_sequences] at its default. *)
Definition build_model (rnn_cell : rnn_kind) : M nat :=
  vocab_size ← get_int "VOCAB_SIZE";
  model ← new_model (Sequential [Embedding vocab_size 32;
                                 Recurrent rnn_cell 32 false;
                                 Dense 1 Sigmoid]);
  compile model "adam" "binary_crossentropy" ["accuracy"];;
  mret model.

(** Calling a layer on symbolic tensors adds a node to the graph being
    built; the tensor it returns is that node. *)
Definition apply_layer (l : layer) (ins : list nat) (g : list node) : nat * list node :=
  (length g, g ++ [mk_node l ins]).

(** [def build_model2(rnn_cell, rnn_units=32)]: the functional graph with
    the attention layer called on [[rnn_output, rnn_output]]. *)
Definition build_model2 (rnn_cell : rnn_kind) (rnn_units : Z) : M nat :=
  maxlen ← get_int "MAXLEN";
  vocab_size ← get_int "VOCAB_SIZE";
  let '(sequence_input, g) := apply_layer (InputLayer [maxlen]) [] [] in
  let '(embedded_sequences, g) :=
    apply_layer (Embedding vocab_size rnn_units) [sequence_input] g in
  let '(rnn_output, g) :=
    apply_layer (Recurrent rnn_cell rnn_units true) [embedded_sequences] g in
  let '(query_value_attention_seq, g) :=
    apply_layer Attention [rnn_output; rnn_output] g in
  let '(attention_flatten, g) := apply_layer Flatten [query_value_attention_seq] g in
  let '(dense_output, g) := apply_layer (Dense 1 Sigmoid) [attention_flatten] g in
  model ← new_model (Functional g sequence_input dense_output);
  compile model "adam" "binary_crossentropy" ["accuracy"];;
  mret model.

Definition call (f : func) (rnn_cell : rnn_kind) : M nat :=
  match f with
  | BuildModel => build_model rnn_cell
  | BuildModel2 => build_model2 rnn_cell 32
  end.

Definition len (l : list (list Z)) : Z := Z.of_nat (length l).

(** Cell 1: constants, data, the three stacked models, the callback, and
    the SimpleRNN run.  (The imports bind no name the model needs.) *)
Definition cell1 : list (M unit) := [
  set "VOCAB_SIZE" (VInt 10000);
  set "MAXLEN" (VInt 500);
  set "BATCH_SIZE" (VInt 64);
  print [PStr "Loading data..."];
  (num_words ← get_int "VOCAB_SIZE";
   d ← imdb_load_data w num_words;
   set "input_train" (VSeqs (fst (fst d)));;
   set "y_train" (VLabels (snd (fst d)));;
   set "input_test" (VSeqs (fst (snd d)));;
   set "y_test" (VLabels (snd (snd d))));
  (x ← get_seqs "input_train"; print [PInt (len x); PStr "train sequences"]);
  (x ← get_seqs "input_test"; print [PInt (len x); PStr "test sequences"]);
  print [PStr "Pad sequences (samples x time)"];
  (x ← get_seqs "input_train"; maxlen ← get_int "MAXLEN";
   a ← sequence_pad_sequences x maxlen; set "input_train" (VArray a));
  (x ← get_seqs "input_test"; maxlen ← get_int "MAXLEN";
   a ← sequence_pad_sequences x maxlen; set "input_test" (VArray a));
  (a ← get_array "input_train"; print [PStr "input_train shape:"; PShape (shape a)]);
  (a ← get_array "input_test"; print [PStr "input_test shape:"; PShape (shape a)]);
  set "build_model" (VFunction BuildModel);
  (f ← get_function "build_model"; m ← call f SimpleRNN; set "rnn_model" (VModel m));
  (f ← get_function "build_model"; m ← call f LSTM; set "lstm_model" (VModel m));
  (f ← get_function "build_model"; m ← call f GRU; set "gru_model" (VModel m));
  (c ← EarlyStopping_ "val_loss" 2; set "callback" (VCallback c));
  (m ← get_model "rnn_model"; x ← get_array "input_train"; y ← get_labels "y_train";
   batch_size ← get_int "BATCH_SIZE"; c ← get_callback "callback";
   h ← fit w m x y 10 batch_size (2 # 10) [c]; set "history" (VHistory h));
  (m ← get_model "rnn_model"; x ← get_array "input_test"; y ← get_labels "y_test";
   r ← evaluate w m x y; set "results" (VResults r));
  (r ← get_results "results"; r0 ← index r 0; r1 ← index r 1;
   print [PStr "Test Loss: "; PFloat r0; PStr " - Test Accuracy: "; PFloat r1])
].

(** Cell 2: the LSTM run. *)
Definition cell2 : list (M unit) := [
  (m ← get_model "lstm_model"; x ← get_array "input_train"; y ← get_labels "y_train";
   batch_size ← get_int "BATCH_SIZE"; c ← get_callback "callback";
   h ← fit w m x y 10 batch_size (2 # 10) [c]; set "history_LSTM" (VHistory h));
  (m ← get_model "lstm_model"; x ← get_array "input_test"; y ← get_labels "y_test";
   r ← evaluate w m x y; set "results_LSTM" (VResults r));
  (r ← get_results "results_LSTM"; r0 ← index r 0; r1 ← index r 1;
   print [PStr "Test Loss: "; PFloat r0; PStr " - Test Accuracy: "; PFloat r1])
].

(** Cell 3: the GRU run. *)
Definition cell3 : list (M unit) := [
  (m ← get_model "gru_model"; x ← get_array "input_train"; y ← get_labels "y_train";
   batch_size ← get_int "BATCH_SIZE"; c ← get_callback "callback";
   h ← fit w m x y 10 batch_size (2 # 10) [c]; set "history_GRU" (VHistory h));
  (m ← get_model "gru_model"; x ← get_array "input_test"; y ← get_labels "y_test";
   r ← evaluate w m x y; set "results_GRU" (VResults r));
  (r ← get_results "results_GRU"; r0 ← index r 0; r1 ← index r 1;
   print [PStr "Test Loss: "; PFloat r0; PStr " - Test Accuracy: "; PFloat r1])
].

(** Cell 4: the constants again, the attention model, its summary.
    The cell's import statements are left out, as those of cell 1 are:
    they bind [tf], [Input], [Embedding], [LSTM], [Dense], [Flatten] and
    [Model], names that the cell itself binds before it uses them and
    that no statement here reads from the namespace. *)
Definition cell4 : list (M unit) := [
  set "VOCAB_SIZE" (VInt 10000);
  set "MAXLEN" (VInt 500);
  set "build_model2" (VFunction BuildModel2);
  (f ← get_function "build_model2"; m ← call f LSTM;
   set "lstm_model_with_attention" (VModel m));
  (m ← get_model "lstm_model_with_attention"; summary_ m)
].

(** Cell 5: the LSTM-with-attention run. *)
Definition cell5 : list (M unit) := [
  (m ← get_model "lstm_model_with_attention"; x ← get_array "input_train";
   y ← get_labels "y_train"; batch_size ← get_int "BATCH_SIZE";
   c ← get_callback "callback";
   h ← fit w m x y 10 batch_size (2 # 10) [c]; set "history_" (VHistory h));
  (m ← get_model "lstm_model_with_attention"; x ← get_array "input_test";
   y ← get_labels "y_test"; r ← evaluate w m x y; set "results_" (VResults r));
  (r ← get_results "results_"; r0 ← index r 0; r1 ← index r 1;
   print [PStr "Test Loss: "; PFloat r0; PStr " - Test Accuracy: "; PFloat r1])
].

(** The cells in the order their execution counts record. *)
Definition notebook : list (M unit) := cell1 ++ cell2 ++ cell3 ++ cell4 ++ cell5.

End Cells.
End Notebook.

(** ** What a run leaves behind *)

Module Run.
Import Keras Kernel Notebook.

Section Final.
Variable w : world.

Definition loaded_train : list (list Z) := load_reviews 10000 (x_train_file w).
Definition loaded_test : list (list Z) := load_reviews 10000 (x_test_file w).
Definition input_train : ndarray := mk_ndarray 500 (map (pad_row 500) loaded_train).
Definition input_test : ndarray := mk_ndarray 500 (map (pad_row 500) loaded_test).

Definition stack (c : rnn_kind) : architecture :=
  Sequential [Embedding 10000 32; Recurrent c 32 false; Dense 1 Sigmoid].

Definition attention_graph : architecture :=
  Functional [mk_node (InputLayer [500]) [];
              mk_node (Embedding 10000 32) [0%nat];
              mk_node (Recurrent LSTM 32 true) [1%nat];
              mk_node Attention [2%nat; 2%nat];
              mk_node Flatten [3%nat];
              mk_node (Dense 1 Sigmoid) [4%nat]] 0 5.

Definition config : compile_config :=
  mk_compile "adam" "binary_crossentropy" ["accuracy"].

(** The four trainings, each starting from the callback store the one
    before it left. *)
Definition run (m : nat) (store : list EarlyStopping) : fit_result :=
  train (resets_best w) (epoch_value w m) config 10 (2 # 10) [0%nat] store.

Definition run_rnn : fit_result := run 0 [new_EarlyStopping "val_loss" 2].
Definition run_lstm : fit_result := run 1 (fr_callbacks run_rnn).
Definition run_gru : fit_result := run 2 (fr_callbacks run_lstm).
Definition run_attention : fit_result := run 3 (fr_callbacks run_gru).

Definition results (m : nat) : list Q :=
  [test_value w m "loss"; test_value w m "accuracy"].

Definition metrics_line (r0 r1 : Q) : list piece :=
  [PStr "Test Loss: "; PFloat r0; PStr " - Test Accuracy: "; PFloat r1].

Definition fit_event (m : nat) (r : fit_result) : event :=
  EvFit m input_train (labels_train_file w) 10 64 (2 # 10) [0%nat] (fr_history r).

Definition evaluate_event (m : nat) : event :=
  EvEvaluate m input_test (labels_test_file w) (results m).

Definition metrics_print (m : nat) : event :=
  EvPrint (metrics_line (test_value w m "loss") (test_value w m "accuracy")).

Definition final_log : list event := [
  EvPrint [PStr "Loading data..."];
  EvLoadData 10000;
  EvPrint [PInt (len loaded_train); PStr "train sequences"];
  EvPrint [PInt (len loaded_test); PStr "test sequences"];
  EvPrint [PStr "Pad sequences (samples x time)"];
  EvPadSequences 500 input_train;
  EvPadSequences 500 input_test;
  EvPrint [PStr "input_train shape:"; PShape (shape input_train)];
  EvPrint [PStr "input_test shape:"; PShape (shape input_test)];
  EvBuild 0 (stack SimpleRNN); EvCompile 0 config;
  EvBuild 1 (stack LSTM); EvCompile 1 config;
  EvBuild 2 (stack GRU); EvCompile 2 config;
  fit_event 0 run_rnn; evaluate_event 0; metrics_print 0;
  fit_event 1 run_lstm; evaluate_event 1; metrics_print 1;
  fit_event 2 run_gru; evaluate_event 2; metrics_print 2;
  EvBuild 3 attention_graph; EvCompile 3 config;
  EvSummary 3 (summarize attention_graph []);
  fit_event 3 run_attention; evaluate_event 3; metrics_print 3
].

Definition trained (a : architecture) (r : fit_result) : model :=
  mk_model a (Some config) (fr_stopped r) (0 + length (fr_history r)).

Definition final_models : list model :=
  [trained (stack SimpleRNN) run_rnn; trained (stack LSTM) run_lstm;
   trained (stack GRU) run_gru; trained attention_graph run_attention].

Definition final_globals : namespace := [
  ("VOCAB_SIZE", VInt 10000); ("MAXLEN", VInt 500); ("BATCH_SIZE", VInt 64);
  ("input_train", VArray input_train); ("y_train", VLabels (labels_train_file w));
  ("input_test", VArray input_test); ("y_test", VLabels (labels_test_file w));
  ("build_model", VFunction BuildModel);
  ("rnn_model", VModel 0); ("lstm_model", VModel 1); ("gru_model", VModel 2);
  ("callback", VCallback 0);
  ("history", VHistory (fr_history run_rnn)); ("results", VResults (results 0));
  ("history_LSTM", VHistory (fr_history run_lstm));
  ("results_LSTM", VResults (results 1));
  ("history_GRU", VHistory (fr_history run_gru));
  ("results_GRU", VResults (results 2));
  ("build_model2", VFunction BuildModel2);
  ("lstm_model_with_attention", VModel 3);
  ("history_", VHistory (fr_history run_attention));
  ("results_", VResults (results 3))
].

Definition final_kernel : kernel :=
  mk_kernel final_globals final_models (fr_callbacks run_attention) final_log.

End Final.

(** *** Reading the record *)

Definition is_load (e : event) : bool :=
  match e with EvLoadData _ => true | _ => false end.

Definition is_pad (e : event) : bool :=
  match e with EvPadSequences _ _ => true | _ => false end.

Definition is_build (e : event) : bool :=
  match e with EvBuild _ _ => true | _ => false end.

Definition is_compile (e : event) : bool :=
  match e with EvCompile _ _ => true | _ => false end.

Definition is_fit (e : event) : bool :=
  match e with EvFit _ _ _ _ _ _ _ _ => true | _ => false end.

Definition is_evaluate (e : event) : bool :=
  match e with EvEvaluate _ _ _ _ => true | _ => false end.

(** The model a step is about, when it is about one. *)
Definition model_of (e : event) : option nat :=
  match e with
  | EvBuild m _ | EvCompile m _ | EvSummary m _
  | EvFit m _ _ _ _ _ _ _ | EvEvaluate m _ _ _ => Some m
  | _ => None
  end.

Definition about (m : nat) (kind : event -> bool) (e : event) : bool :=
  kind e && bool_decide (model_of e = Some m).

(** The places of the record where a step of some kind stands. *)
Fixpoint positions_from (i : nat) (p : event -> bool) (l : list event) : list nat :=
  match l with
  | [] => []
  | e :: rest => (if p e then [i] else []) ++ positions_from (S i) p rest
  end.

Definition positions (p : event -> bool) (l : list event) : list nat :=
  positions_from 0 p l.

(** Every step of the first kind comes before every step of the second. *)
Definition precedes (p q : event -> bool) (l : list event) : Prop :=
  forall i j, In i (positions p l) -> In j (positions q l) -> (i < j)%nat.

Definition built (l : list event) : list (nat * architecture) :=
  omap (fun e => match e with EvBuild m a => Some (m, a) | _ => None end) l.

Definition recurrent_cells (a : architecture) : list rnn_kind :=
  let layers := match a with
                | Sequential ls => ls
                | Functional nodes _ _ => map n_layer nodes
                end in
  omap (fun l => match l with Recurrent c _ _ => Some c | _ => None end) layers.

Definition has_attention (a : architecture) : bool :=
  let layers := match a with
                | Sequential ls => ls
                | Functional nodes _ _ => map n_layer nodes
                end in
  existsb (fun l => match l with Attention => true | _ => false end) layers.

(** *** Validation loss and improvement *)

Definition val_loss (w : world) (m e : nat) : Q := epoch_value w m e "val_loss".

(** Epoch [e] fails to improve when its value is not below every value
    of the earlier epochs of the same training. *)
Definition fails_to_improve (v : nat -> Q) (e : nat) : Prop :=
  exists j, (j < e)%nat /\ (v j <= v e)%Q.

(** What epoch [e] reports when the model is compiled as the notebook
    compiles it and validation data is present. *)
Definition epoch_logs (values : nat -> string -> Q) (e : nat) : logs :=
  map (fun key => (key, values e key)) (log_keys config true).

(** The callback as the notebook creates it: it watches [val_loss] with
    a patience of two epochs and no [min_delta]. *)
Definition watches_val_loss (cb : EarlyStopping) : Prop :=
  es_monitor cb = "val_loss" /\ es_patience cb = 2%nat /\ es_min_delta cb = 0%Q.

(** A training of model [m] as the notebook runs it: between one and ten
    epochs, each reporting what the world gives for it, and none past
    the second of two epochs in a row that fail to improve.  The one
    callback is left watching as before. *)
Definition stops_by_patience (w : world) (m : nat) (r : fit_result) : Prop :=
  exists (n : nat) (cb : EarlyStopping),
    fr_callbacks r = [cb] /\ watches_val_loss cb /\
    fr_history r = map (epoch_logs (epoch_value w m)) (seq 0 n) /\
    (1 <= n <= 10)%nat /\
    (forall e, fails_to_improve (val_loss w m) e ->
               fails_to_improve (val_loss w m) (S e) -> (n <= S (S e))%nat).

(** The epochs each training ran, in the order of the record. *)
Definition epochs_run (l : list event) : list (nat * nat) :=
  omap (fun e => match e with
                 | EvFit m _ _ _ _ _ _ h => Some (m, length h)
                 | _ => None
                 end) l.

(** The array a step feeds to a model. *)
Definition fed (e : event) : option ndarray :=
  match e with
  | EvFit _ x _ _ _ _ _ _ | EvEvaluate _ x _ _ => Some x
  | _ => None
  end.

(** The names the dataset is bound to, and what it is for an action to
    leave them alone: whenever it returns, each of them is bound as it
    was before. *)
Definition data_names : list string := ["input_train"; "y_train"; "input_test"; "y_test"].

Definition keeps_data {A} (c : M A) : Prop :=
  forall k a k', c k = inr (a, k') ->
    forall name, In name data_names -> ns_get name (globals k') = ns_get name (globals k).

(** *** The run the notebook records

    The validation losses printed under the four [fit] calls, and a tiny
    dataset in place of the file. *)
Definition recorded_val_loss : list (list Q) := [
  [4371 # 10000; 4366 # 10000; 4364 # 10000; 4602 # 10000; 5164 # 10000];
  [3558 # 10000; 3172 # 10000; 3055 # 10000; 3379 # 10000; 3490 # 10000];
  [3581 # 10000; 3231 # 10000];
  [3283 # 10000; 2830 # 10000; 3176 # 10000; 3553 # 10000]
].

Definition recorded_value (m e : nat) (key : string) : Q :=
  if String.eqb key "val_loss"
  then nth e (nth m recorded_val_loss []) 0%Q
  else 0%Q.

Definition recorded_world (release_resets_best : bool) : world :=
  mk_world [[11; 7; 9999]; []] [1; 0] [[20000; 5]] [1]
           release_resets_best recorded_value (fun _ _ => 0%Q).

(** A world with a dataset of the size of the file: 25000 reviews in
    each split. *)
Definition sized_world : world :=
  mk_world (repeat [11; 7] (Z.to_nat 25000)) (repeat 1 (Z.to_nat 25000))
           (repeat [5] (Z.to_nat 25000)) (repeat 0 (Z.to_nat 25000))
           false (fun _ _ _ => 0%Q) (fun _ _ => 0%Q).

(** Modelled from the spec: the lookup the framework's [Embedding] layer
    does, not code of the repository.  The table holds one vector per
    index; looking an index up fails outside the table. *)
Definition embedding_lookup {A} (table : list A) (token : Z) : option A :=
  if token <? 0 then None else table !! Z.to_nat token.

Definition embedding_of (a : architecture) : option layer :=
  let layers := match a with
                | Sequential ls => ls
                | Functional nodes _ _ => map n_layer nodes
                end in
  find (fun l => match l with Embedding _ _ => true | _ => false end) layers.

(** *** The build functions on any kernel *)

(** The stack [build_model] makes when [VOCAB_SIZE] is bound to [v]. *)
Definition stack_of (v : Z) (c : rnn_kind) : architecture :=
  Sequential [Embedding v 32; Recurrent c 32 false; Dense 1 Sigmoid].

(** The graph [build_model2] makes when [MAXLEN] is bound to [l] and
    [VOCAB_SIZE] to [v]. *)
Definition attention_graph_of (l v : Z) (c : rnn_kind) (u : Z) : architecture :=
  Functional [mk_node (InputLayer [l]) [];
              mk_node (Embedding v u) [0%nat];
              mk_node (Recurrent c u true) [1%nat];
              mk_node Attention [2%nat; 2%nat];
              mk_node Flatten [3%nat];
              mk_node (Dense 1 Sigmoid) [4%nat]] 0 5.

(** The kernel after a build: one more model, compiled, and two more
    steps in the record; nothing else has changed. *)
Definition with_new_model (k : kernel) (a : architecture) : kernel :=
  mk_kernel (globals k)
            (models k ++ [mk_model a (Some config) false 0])
            (callbacks k)
            (log k ++ [EvBuild (length (models k)) a;
                       EvCompile (length (models k)) config]).

(** The weights of a recurrent layer of [u] units over inputs of width
    [d], by kind of cell. *)
Definition cell_params (c : rnn_kind) (d u : Z) : Z :=
  match c with
  | SimpleRNN => (d + u) * u + u
  | LSTM => 4 * ((d + u) * u + u)
  | GRU => 3 * ((d + u) * u + 2 * u)
  end.

(** *** The cells that train a model

    Cells 2, 3 and 5 are the same three statements over different names. *)
Definition training_cell (w : world) (model_name history_name results_name : string)
  : list (M unit) := [
  (m ← get_model model_name; x ← get_array "input_train"; y ← get_labels "y_train";
   batch_size ← get_int "BATCH_SIZE"; c ← get_callback "callback";
   h ← fit w m x y 10 batch_size (2 # 10) [c]; set history_name (VHistory h));
  (m ← get_model model_name; x ← get_array "input_test"; y ← get_labels "y_test";
   r ← evaluate w m x y; set results_name (VResults r));
  (r ← get_results results_name; r0 ← index r 0; r1 ← index r 1;
   print [PStr "Test Loss: "; PFloat r0; PStr " - Test Accuracy: "; PFloat r1])
].

(** What a training cell finds when it can run: its model's name bound
    to a model compiled with at least one metric, the dataset under its
    four names, the batch size and the callback. *)
Definition ready_to_train (model_name : string) (k : kernel) : Prop :=
  exists (m : nat) (mo : model) (c : compile_config) (x xt : ndarray) (y yt : list Z)
         (b : Z) (cb : nat),
    ns_get model_name (globals k) = Some (VModel m) /\
    models k !! m = Some mo /\ m_compiled mo = Some c /\ metrics c <> [] /\
    ns_get "input_train" (globals k) = Some (VArray x) /\
    ns_get "y_train" (globals k) = Some (VLabels y) /\
    ns_get "BATCH_SIZE" (globals k) = Some (VInt b) /\
    ns_get "callback" (globals k) = Some (VCallback cb) /\
    ns_get "input_test" (globals k) = Some (VArray xt) /\
    ns_get "y_test" (globals k) = Some (VLabels yt).

(** The callback store a training starts from: what the training before
    it left. *)
Definition store_before (w : world) (m : nat) : list EarlyStopping :=
  match m with
  | 0%nat => [new_EarlyStopping "val_loss" 2]
  | 1%nat => fr_callbacks (run_rnn w)
  | 2%nat => fr_callbacks (run_lstm w)
  | _ => fr_callbacks (run_gru w)
  end.


(** The kernel a training cell leaves: the model trained and marked, the
    callbacks as the training left them, the history and the results
    under the cell's two names, and three more steps in the record. *)
Definition after_training_cell (w : world) (k : kernel) (history_name results_name : string)
    (m : nat) (mo : model) (c : compile_config) (x xt : ndarray) (y yt : list Z)
    (b : Z) (cb : nat) : kernel :=
  let r := train (resets_best w) (epoch_value w m) c 10 (2 # 10) [cb] (callbacks k) in
  let res := evaluate_values (test_value w m) c in
  mk_kernel
    (ns_set results_name (VResults res)
       (ns_set history_name (VHistory (fr_history r)) (globals k)))
    (<[m := mk_model (m_arch mo) (Some c) (fr_stopped r)
                     (m_epochs_trained mo + length (fr_history r))]> (models k))
    (fr_callbacks r)
    (log k ++ [EvFit m x y 10 b (2 # 10) [cb] (fr_history r);
               EvEvaluate m xt yt res;
               EvPrint (metrics_line (test_value w m "loss")
                                     (test_value w m (hd "" (metrics c))))]).

(** What a training cell does to the kernel [k] it starts from, [k'] being
    the kernel it leaves: it trains and evaluates the one model its name
    is bound to, on the arrays the dataset names are bound to; it adds
    the three steps to the record, the printed line showing the first two
    results; it binds its two names and no other;
    it changes no other model, and of its own model neither the
    architecture nor the configuration. *)
Definition training_cell_effect (mn hn rn : string) (k k' : kernel) : Prop :=
  exists (m : nat) (mo mo' : model) (x xt : ndarray) (y yt : list Z) (b : Z) (cb : nat)
         (h : list logs) (r : list Q) (r0 r1 : Q),
    r !! 0%nat = Some r0 /\ r !! 1%nat = Some r1 /\
    ns_get mn (globals k) = Some (VModel m) /\
    ns_get "input_train" (globals k) = Some (VArray x) /\
    ns_get "y_train" (globals k) = Some (VLabels y) /\
    ns_get "input_test" (globals k) = Some (VArray xt) /\
    ns_get "y_test" (globals k) = Some (VLabels yt) /\
    ns_get "BATCH_SIZE" (globals k) = Some (VInt b) /\
    ns_get "callback" (globals k) = Some (VCallback cb) /\
    log k' = log k ++ [EvFit m x y 10 b (2 # 10) [cb] h;
                       EvEvaluate m xt yt r;
                       EvPrint (metrics_line r0 r1)] /\
    ns_get hn (globals k') = Some (VHistory h) /\
    ns_get rn (globals k') = Some (VResults r) /\
    (forall name, name <> hn -> name <> rn ->
       ns_get name (globals k') = ns_get name (globals k)) /\
    length (models k') = length (models k) /\
    (forall m', m' <> m -> models k' !! m' = models k !! m') /\
    models k !! m = Some mo /\ models k' !! m = Some mo' /\
    m_arch mo' = m_arch mo /\ m_compiled mo' = m_compiled mo /\
    m_epochs_trained mo' = (m_epochs_trained mo + length h)%nat.

(** *** Running the notebook in a kernel that was used before *)



End Run.

(** * Properties *)

Import Keras Kernel Notebook Run.

(** ** The framework functions on small inputs *)

Example pad_short : pad_row 5 [7; 8; 9] = [0; 0; 7; 8; 9].
Proof. reflexivity. Qed.

Example pad_long : pad_row 3 [4; 5; 6; 7; 8] = [6; 7; 8].
Proof. reflexivity. Qed.

Example load_clips : load_reviews 10 [[0; 6; 7; 20]] = [[1; 3; 9; 2; 2]].
Proof. reflexivity. Qed.

Example stack_gives_one_score : output_shape (stack GRU) [500] = Some [1].
Proof. reflexivity. Qed.

(** ** Running the notebook *)

(** The notebook runs to its end without raising, and leaves
    [final_kernel]: the names, the objects and the record of calls. *)
Lemma notebook_runs (w : world) : exec (notebook w) kernel0 = inr (final_kernel w).
Proof. cbv -[train load_reviews pad_row summarize]. reflexivity. Qed.

(** A step of the record is one of the thirty the notebook takes. *)
Ltac record_cases H :=
  cbv [log final_kernel final_log fit_event evaluate_event metrics_print In] in H;
  repeat (destruct H as [H | H]; [try discriminate H | ]); try contradiction.

Ltac settle_order :=
  let i := fresh "i" in let j := fresh "j" in
  let Hi := fresh "Hi" in let Hj := fresh "Hj" in
  intros i j Hi Hj;
  cbv -[train load_reviews pad_row summarize] in Hi, Hj;
  intuition lia.

(** ** C1: four recurrent configurations, each a binary classifier *)

(** C1.  The notebook builds exactly four models: stacks around a
    SimpleRNN, an LSTM and a GRU cell, and an LSTM followed by attention.
    Each is trained once and evaluated once.  The layer that produces
    each model's output is [Dense(1, activation='sigmoid')], and on input
    rows of the padded width each model gives a single score. *)
Theorem c1_four_binary_classifiers (w : world) :
  exists k, exec (notebook w) kernel0 = inr k /\
    built (log k) = [(0, stack SimpleRNN); (1, stack LSTM); (2, stack GRU);
                     (3, attention_graph)]%nat /\
    map (fun ma => (recurrent_cells (snd ma), has_attention (snd ma))) (built (log k))
      = [([SimpleRNN], false); ([LSTM], false); ([GRU], false); ([LSTM], true)] /\
    (forall m, In m [0; 1; 2; 3]%nat ->
       length (positions (about m is_build) (log k)) = 1%nat /\
       length (positions (about m is_fit) (log k)) = 1%nat /\
       length (positions (about m is_evaluate) (log k)) = 1%nat) /\
    length (positions is_build (log k)) = 4%nat /\
    length (positions is_fit (log k)) = 4%nat /\
    length (positions is_evaluate (log k)) = 4%nat /\
    Forall (fun ma =>
              final_layer (snd ma) = Some (Dense 1 Sigmoid) /\
              output_shape (snd ma) [Z.of_nat (nd_cols (input_train w))] = Some [1])
           (built (log k)).
Proof.
  exists (final_kernel w). split; [apply notebook_runs |].
  split; [reflexivity |]. split; [reflexivity |]. split.
  - intros m [<- | [<- | [<- | [<- | []]]]]; (split; [| split]); reflexivity.
  - do 3 (split; [reflexivity |]).
    repeat (constructor; [split; reflexivity |]). constructor.
Qed.

(** ** C3: the order of the steps *)

(** C3.  The record of a run has one load, then the two paddings, and
    both come before any model is built or trained.  Each of the four
    models is built exactly once, trained exactly once and evaluated
    exactly once, in this order, and the line printed right after the
    evaluation shows the two numbers the evaluation returned.  A model's
    evaluation is over before the next model's training starts.  The
    three stacks are built before any training; the attention model is
    built only after the third stack has been evaluated. *)
Theorem c3_steps_in_order (w : world) :
  exists k, exec (notebook w) kernel0 = inr k /\
    length (positions is_load (log k)) = 1%nat /\
    length (positions is_pad (log k)) = 2%nat /\
    precedes is_load is_pad (log k) /\
    precedes is_pad is_build (log k) /\
    precedes is_pad is_fit (log k) /\
    (forall m, In m [0; 1; 2; 3]%nat ->
       precedes (about m is_build) (about m is_fit) (log k) /\
       precedes (about m is_fit) (about m is_evaluate) (log k) /\
       precedes (about m is_evaluate) (about (S m) is_fit) (log k)) /\
    (forall i m x y r, log k !! i = Some (EvEvaluate m x y r) ->
       exists r0 r1, r = [r0; r1] /\
         log k !! S i = Some (EvPrint (metrics_line r0 r1))) /\
    length (positions is_build (log k)) = 4%nat /\
    length (positions is_fit (log k)) = 4%nat /\
    length (positions is_evaluate (log k)) = 4%nat /\
    (forall m, In m [0; 1; 2; 3]%nat ->
       length (positions (about m is_build) (log k)) = 1%nat /\
       length (positions (about m is_fit) (log k)) = 1%nat /\
       length (positions (about m is_evaluate) (log k)) = 1%nat) /\
    (forall m, In m [0; 1; 2]%nat -> precedes (about m is_build) is_fit (log k)) /\
    precedes (about 2%nat is_evaluate) (about 3%nat is_build) (log k).
Proof.
  exists (final_kernel w). split; [apply notebook_runs |].
  split; [reflexivity |]. split; [reflexivity |].
  split; [settle_order |]. split; [settle_order |]. split; [settle_order |].
  split.
  { intros m [<- | [<- | [<- | [<- | []]]]]; repeat split; settle_order. }
  split.
  { intros i m x y r H. cbv [log final_kernel final_log] in *.
    do 30 (destruct i as [| i];
           [try discriminate H;
            cbv [evaluate_event results] in H; injection H as <- <- <- <-;
            eexists _, _; split; reflexivity |]).
    discriminate H. }
  split; [reflexivity |]. split; [reflexivity |]. split; [reflexivity |].
  split.
  { intros m [<- | [<- | [<- | [<- | []]]]];
      (split; [reflexivity |]); (split; [reflexivity |]); reflexivity. }
  split; [| settle_order].
  intros m [<- | [<- | [<- | []]]]; settle_order.
Qed.

(** The steps of the notebook are not five phases one after another:
    on the recorded run, a model is built after a model was trained (the
    attention model, step 24 of the record, after the SimpleRNN training,
    step 15), and a model is trained after a model was evaluated (the
    LSTM training, step 18, after the SimpleRNN evaluation, step 16). *)
Lemma c3_global_order_counterexample :
  exists k, exec (notebook (recorded_world false)) kernel0 = inr k /\
    In 24%nat (positions is_build (log k)) /\
    In 15%nat (positions is_fit (log k)) /\
    In 18%nat (positions is_fit (log k)) /\
    In 16%nat (positions is_evaluate (log k)) /\
    ~ precedes is_build is_fit (log k) /\
    ~ precedes is_fit is_evaluate (log k).
Proof.
  exists (final_kernel (recorded_world false)). split; [apply notebook_runs |].
  assert (B : In 24%nat (positions is_build (log (final_kernel (recorded_world false)))))
    by (cbv -[train load_reviews pad_row summarize]; tauto).
  assert (F : In 15%nat (positions is_fit (log (final_kernel (recorded_world false)))))
    by (cbv -[train load_reviews pad_row summarize]; tauto).
  assert (F' : In 18%nat (positions is_fit (log (final_kernel (recorded_world false)))))
    by (cbv -[train load_reviews pad_row summarize]; tauto).
  assert (E : In 16%nat (positions is_evaluate (log (final_kernel (recorded_world false)))))
    by (cbv -[train load_reviews pad_row summarize]; tauto).
  do 4 (split; [assumption |]). split.
  - intros H. specialize (H 24%nat 15%nat B F). lia.
  - intros H. specialize (H 18%nat 16%nat F' E). lia.
Qed.

(** The construction of the models is not one phase: the attention model
    is built after the three stacks have been trained and evaluated. *)
Lemma attention_model_built_last (w : world) :
  ~ precedes is_build is_fit (log (final_kernel w)).
Proof.
  intros H. specialize (H 24%nat 15%nat).
  cbv -[train load_reviews pad_row summarize lt] in H.
  assert (24 < 15)%nat by (apply H; tauto). lia.
Qed.

(** ** The epoch loop under the early-stopping callback *)

Lemma Qltb_true (x y : Q) : Qltb x y = true <-> (x < y)%Q.
Proof.
  unfold Qltb. rewrite negb_true_iff, <- not_true_iff_false, Qle_bool_iff.
  split; [apply Qnot_le_lt | apply Qlt_not_le].
Qed.

Lemma Qltb_false (x y : Q) : Qltb x y = false <-> (y <= x)%Q.
Proof. unfold Qltb. rewrite negb_false_iff. apply Qle_bool_iff. Qed.

Section EarlyStop.
Variable values : nat -> string -> Q.

Let v (e : nat) : Q := values e "val_loss".

Lemma monitored_value (cb : EarlyStopping) (e : nat) :
  watches_val_loss cb -> logs_get (es_monitor cb) (epoch_logs values e) = Some (v e).
Proof. intros (-> & _). reflexivity. Qed.

Lemma improvement_below_best (cb : EarlyStopping) (x b : Q) :
  watches_val_loss cb -> es_best cb = Some b ->
  (is_improvement cb x = true <-> (x < b)%Q) /\
  (is_improvement cb x = false <-> (b <= x)%Q).
Proof.
  intros (_ & _ & Hd) Hb. unfold is_improvement. rewrite Hb, Hd.
  rewrite Qltb_true, Qltb_false. split; split; intros; lra.
Qed.

(** One epoch's end, by cases: an improvement becomes the best value and
    clears the count; anything else adds to the count and stops the
    training when the count has reached two and the epoch is not the
    first. *)
Lemma on_epoch_end_cases (cb : EarlyStopping) (e : nat) :
  watches_val_loss cb ->
  let step := on_epoch_end cb e (epoch_logs values e) in
  watches_val_loss (fst step) /\
  ((is_improvement cb (v e) = true /\ es_best (fst step) = Some (v e) /\
    es_wait (fst step) = 0%nat /\ snd step = false) \/
   (is_improvement cb (v e) = false /\ es_best (fst step) = es_best cb /\
    es_wait (fst step) = S (es_wait cb) /\
    snd step = (2 <=? S (es_wait cb))%nat && (0 <? e)%nat)).
Proof.
  intros Hw. pose proof Hw as (Hm & Hp & Hd). cbv zeta.
  unfold on_epoch_end. rewrite (monitored_value cb e Hw).
  destruct (is_improvement cb (v e)) eqn:Hi.
  - split; [repeat split; assumption |]. left. repeat split.
  - rewrite Hp. destruct ((2 <=? S (es_wait cb))%nat && (0 <? e)%nat) eqn:Hs.
    + split; [repeat split; assumption |]. right. repeat split.
    + split; [repeat split; assumption |]. right. repeat split.
Qed.

(** The loop from epoch [epoch] on, for the notebook's single callback.
    The best value the callback holds is never above a value this
    training has reported (it may be lower: it may come from an earlier
    training), so an epoch that fails to improve on its own training also
    fails to improve on the callback's best. *)
Lemma fit_loop_single (fuel : nat) :
  forall (epoch : nat) (cb : EarlyStopping) (history : list logs),
    watches_val_loss cb ->
    (forall j, (j < epoch)%nat -> exists b, es_best cb = Some b /\ (b <= v j)%Q) ->
    (forall e, S e = epoch -> fails_to_improve v e -> (1 <= es_wait cb)%nat) ->
    exists (n : nat) (cb' : EarlyStopping) (stopped : bool),
      fit_loop (epoch_logs values) [0%nat] fuel epoch [cb] history
        = mk_fit_result [cb'] (history ++ map (epoch_logs values) (seq epoch n)) stopped /\
      watches_val_loss cb' /\
      (n <= fuel)%nat /\ ((1 <= fuel)%nat -> (1 <= n)%nat) /\
      (forall e, (epoch <= S e)%nat -> fails_to_improve v e ->
                 fails_to_improve v (S e) -> (n + epoch <= S (S e))%nat).
Proof.
  induction fuel as [| fuel IH]; intros epoch cb history Hw Hbest Hwait.
  - exists 0%nat, cb, false. cbn [fit_loop seq map]. rewrite app_nil_r.
    split; [reflexivity |]. split; [assumption |].
    split; [lia |]. split; [lia |]. intros; lia.
  - cbn [fit_loop callbacks_on_epoch_end fold_left fst snd].
    change ([cb] !! 0%nat) with (Some cb).
    cbn [fst snd orb]. change (<[0%nat := ?x]> [cb]) with [x].
    destruct (on_epoch_end_cases cb epoch Hw) as (Hw1 & Hcase).
    set (step := on_epoch_end cb epoch (epoch_logs values epoch)) in *.
    change (<[0%nat := fst step]> [cb]) with [fst step].
    assert (Hnofail : is_improvement cb (v epoch) = true ->
                      ~ fails_to_improve v epoch).
    { intros Hi (j & Hj & Hle). destruct (Hbest j Hj) as (b & Hb & Hbj).
      apply (improvement_below_best cb (v epoch) b Hw Hb) in Hi. lra. }
    destruct Hcase as [(Hi & Hb1 & Hw0 & Hs) | (Hi & Hb1 & Hw0 & Hs)].
    + (* an improvement: the loop goes on *)
      rewrite Hs.
      destruct (IH (S epoch) (fst step) (history ++ [epoch_logs values epoch]) Hw1)
        as (n & cb' & st & Heq & Hw' & Hn & Hn1 & Hstop).
      * intros j Hj. exists (v epoch). split; [assumption |].
        destruct (Nat.eq_dec j epoch) as [-> | Hne]; [lra |].
        destruct (Hbest j ltac:(lia)) as (b & Hb & Hbj).
        apply (improvement_below_best cb (v epoch) b Hw Hb) in Hi. lra.
      * intros e He Hf. injection He as ->. exfalso. exact (Hnofail Hi Hf).
      * exists (S n), cb', st. rewrite Heq, <- app_assoc. cbn [seq map app].
        split; [reflexivity |]. split; [assumption |].
        split; [lia |]. split; [lia |].
        intros e He Hf1 Hf2.
        destruct (Nat.eq_dec (S e) epoch) as [E | E].
        -- exfalso. rewrite E in Hf2. exact (Hnofail Hi Hf2).
        -- specialize (Hstop e ltac:(lia) Hf1 Hf2). lia.
    + (* no improvement *)
      rewrite Hs.
      destruct ((2 <=? S (es_wait cb))%nat && (0 <? epoch)%nat) eqn:Hgo.
      * exists 1%nat, (fst step), true. cbn [seq map].
        split; [reflexivity |]. split; [assumption |].
        split; [lia |]. split; [lia |]. intros; lia.
      * destruct (IH (S epoch) (fst step) (history ++ [epoch_logs values epoch]) Hw1)
          as (n & cb' & st & Heq & Hw' & Hn & Hn1 & Hstop).
        -- intros j Hj. rewrite Hb1.
           destruct (Nat.eq_dec j epoch) as [-> | Hne]; [| apply Hbest; lia].
           destruct (es_best cb) as [b |] eqn:Hb;
             [| unfold is_improvement in Hi; rewrite Hb in Hi; discriminate Hi].
           exists b. split; [reflexivity |].
           apply (improvement_below_best cb (v epoch) b Hw Hb) in Hi. exact Hi.
        -- intros e He Hf. rewrite Hw0. lia.
        -- exists (S n), cb', st. rewrite Heq, <- app_assoc. cbn [seq map app].
           split; [reflexivity |]. split; [assumption |].
           split; [lia |]. split; [lia |].
           intros e He Hf1 Hf2.
           destruct (Nat.eq_dec (S e) epoch) as [E | E].
           ++ exfalso. specialize (Hwait e E Hf1).
              apply andb_false_iff in Hgo as [Hgo | Hgo].
              ** apply Nat.leb_gt in Hgo. lia.
              ** apply Nat.ltb_ge in Hgo. lia.
           ++ specialize (Hstop e ltac:(lia) Hf1 Hf2). lia.
Qed.

(** A whole [fit] of the notebook: ten epochs at most, one at least, and
    no epoch past the second of two that fail to improve in a row.  The
    callback leaves the training as the notebook set it up. *)
Lemma train_stops_early (release_resets_best : bool) (cb : EarlyStopping) :
  watches_val_loss cb ->
  exists (n : nat) (cb' : EarlyStopping) (stopped : bool),
    train release_resets_best values config 10 (2 # 10) [0%nat] [cb]
      = mk_fit_result [cb'] (map (epoch_logs values) (seq 0 n)) stopped /\
    watches_val_loss cb' /\
    (1 <= n <= 10)%nat /\
    (forall e, fails_to_improve v e -> fails_to_improve v (S e) -> (n <= S (S e))%nat).
Proof.
  intros Hw.
  destruct (fit_loop_single 10 0 (on_train_begin release_resets_best cb) [])
    as (n & cb' & st & Heq & Hw' & Hn & Hn1 & Hstop).
  - destruct Hw as (Hm & Hp & Hd). repeat split; assumption.
  - intros j Hj. lia.
  - intros e He. discriminate He.
  - exists n, cb', st. split; [exact Heq |]. split; [assumption |].
    split; [lia |]. intros e Hf1 Hf2. specialize (Hstop e ltac:(lia) Hf1 Hf2). lia.
Qed.

End EarlyStop.

Lemma run_stops_by_patience (w : world) (m : nat) (cb : EarlyStopping) :
  watches_val_loss cb -> stops_by_patience w m (run w m [cb]).
Proof.
  intros Hw.
  destruct (train_stops_early (epoch_value w m) (resets_best w) cb Hw)
    as (n & cb' & st & Heq & Hw' & Hn & Hstop).
  exists n, cb'. unfold run. rewrite Heq. cbn [fr_callbacks fr_history].
  repeat (split; [first [reflexivity | assumption | lia] |]). exact Hstop.
Qed.

(** The four trainings share the callback: each starts from what the one
    before left in it, and each stops by the same rule. *)
Lemma all_runs_stop_by_patience (w : world) :
  stops_by_patience w 0 (run_rnn w) /\ stops_by_patience w 1 (run_lstm w) /\
  stops_by_patience w 2 (run_gru w) /\ stops_by_patience w 3 (run_attention w).
Proof.
  assert (H0 : stops_by_patience w 0 (run_rnn w)).
  { apply run_stops_by_patience. repeat split. }
  assert (H1 : stops_by_patience w 1 (run_lstm w)).
  { destruct H0 as (n & cb & Hc & Hw & _). unfold run_lstm. rewrite Hc.
    apply run_stops_by_patience, Hw. }
  assert (H2 : stops_by_patience w 2 (run_gru w)).
  { destruct H1 as (n & cb & Hc & Hw & _). unfold run_gru. rewrite Hc.
    apply run_stops_by_patience, Hw. }
  assert (H3 : stops_by_patience w 3 (run_attention w)).
  { destruct H2 as (n & cb & Hc & Hw & _). unfold run_attention. rewrite Hc.
    apply run_stops_by_patience, Hw. }
  auto.
Qed.

Lemma history_reports_val_loss (w : world) (m n e : nat) (l : logs) :
  map (epoch_logs (epoch_value w m)) (seq 0 n) !! e = Some l ->
  logs_get "val_loss" l = Some (val_loss w m e).
Proof.
  intros H. rewrite list_lookup_fmap in H.
  destruct (seq 0 n !! e) as [e' |] eqn:He; [| discriminate H].
  apply lookup_seq in He as [-> _]. injection H as <-. reflexivity.
Qed.

(** A model that was never compiled cannot be trained. *)
Lemma fit_needs_compile (w : world) (k : kernel) (m : nat) (mo : model)
    (x : ndarray) (y : list Z) (epochs batch_size : Z) (vs : Q) (cbs : list nat) :
  models k !! m = Some mo -> m_compiled mo = None ->
  fit w m x y epochs batch_size vs cbs k
    = inl (ValueError "You must call compile() before fit()").
Proof. intros Hm Hc. unfold fit. rewrite Hm, Hc. reflexivity. Qed.

(** ** C5: one compile configuration, one shared callback *)

(** C5.  Every model is compiled, before it is trained, with the Adam
    optimizer, binary cross-entropy as the loss and accuracy as the only
    metric; a model that was not compiled could not be trained at all.
    Every [fit] is given the list holding the one callback object the
    notebook creates, the object the name [callback] is bound to, and
    that object monitors [val_loss]. *)
Theorem c5_compile_and_callback (w : world) :
  exists k, exec (notebook w) kernel0 = inr k /\
    (forall m c, In (EvCompile m c) (log k) ->
       optimizer c = "adam" /\ loss c = "binary_crossentropy" /\
       metrics c = ["accuracy"]) /\
    (forall m, In m [0; 1; 2; 3]%nat ->
       length (positions (about m is_compile) (log k)) = 1%nat /\
       precedes (about m is_compile) (about m is_fit) (log k)) /\
    length (models k) = 4%nat /\
    Forall (fun mo => m_compiled mo = Some config) (models k) /\
    (forall k' m mo x y epochs batch_size vs cbs,
       models k' !! m = Some mo -> m_compiled mo = None ->
       exists e, fit w m x y epochs batch_size vs cbs k' = inl e) /\
    ns_get "callback" (globals k) = Some (VCallback 0) /\
    (forall m x y epochs batch_size vs cbs h,
       In (EvFit m x y epochs batch_size vs cbs h) (log k) -> cbs = [0%nat]) /\
    (exists cb, callbacks k = [cb] /\ es_monitor cb = "val_loss").
Proof.
  exists (final_kernel w). split; [apply notebook_runs |].
  split.
  { intros m c H. record_cases H; injection H as <- <-; repeat split. }
  split.
  { intros m [<- | [<- | [<- | [<- | []]]]]; (split; [reflexivity | settle_order]). }
  split; [reflexivity |].
  split; [repeat constructor |].
  split.
  { intros k' m mo x y epochs batch_size vs cbs Hm Hc. eexists.
    apply (fit_needs_compile w k' m mo); assumption. }
  split; [reflexivity |].
  split.
  { intros m x y epochs batch_size vs cbs h H.
    record_cases H; injection H as <- <- <- <- <- <- <- <-; reflexivity. }
  destruct (all_runs_stop_by_patience w) as (_ & _ & _ & n & cb & Hc & (Hm & _) & _).
  exists cb. split; [exact Hc | exact Hm].
Qed.

(** ** C8: at most ten epochs, fewer when the validation loss stalls *)

(** C8.  Every [fit] of the notebook is called with [epochs=10] and
    [validation_split=0.2] and the one callback, which watches
    [val_loss] with patience 2.  It runs at least one epoch and at most
    ten, each reporting the validation loss of that epoch; and when two
    epochs in a row, [e] and [e+1] (counted from 0), both fail to bring
    the validation loss below every earlier epoch of that training, no
    epoch runs after the second of them.  The count need not be ten: on
    the validation losses the notebook records, the four trainings run
    5, 5, 2 and 4 epochs. *)
Theorem c8_at_most_ten_epochs :
  (forall w, exists k, exec (notebook w) kernel0 = inr k /\
     (exists cb, callbacks k = [cb] /\ watches_val_loss cb) /\
     map fst (epochs_run (log k)) = [0; 1; 2; 3]%nat /\
     forall m x y epochs batch_size vs cbs h,
       In (EvFit m x y epochs batch_size vs cbs h) (log k) ->
       epochs = 10 /\ vs = (2 # 10)%Q /\ cbs = [0%nat] /\
       (1 <= length h <= 10)%nat /\
       (forall e l, h !! e = Some l -> logs_get "val_loss" l = Some (val_loss w m e)) /\
       (forall e, fails_to_improve (val_loss w m) e ->
                  fails_to_improve (val_loss w m) (S e) ->
                  (length h <= S (S e))%nat)) /\
  (exists k, exec (notebook (recorded_world false)) kernel0 = inr k /\
     epochs_run (log k) = [(0, 5); (1, 5); (2, 2); (3, 4)]%nat).
Proof.
  split.
  - intros w. exists (final_kernel w). split; [apply notebook_runs |].
    destruct (all_runs_stop_by_patience w) as (H0 & H1 & H2 & H3).
    split.
    { destruct H3 as (n & cb & Hc & Hw & _). exists cb. split; assumption. }
    split; [reflexivity |].
    intros m x y epochs batch_size vs cbs h H.
    record_cases H; injection H as <- <- <- <- <- <- <- <-;
      match goal with
      | Hr : stops_by_patience w ?m ?r |- context [fr_history ?r] =>
          destruct Hr as (n & cb & _ & _ & Hh & Hn & Hstop); rewrite Hh
      end;
      rewrite length_map, length_seq;
      (repeat (split; [first [reflexivity | lia] |]));
      (split; [intros e l; apply history_reports_val_loss | exact Hstop]).
  - eexists. split; [vm_compute; reflexivity | reflexivity].
Qed.

(** ** C7: evaluation gives the loss, then the accuracy *)

(** C7.  Each of the four evaluations is run on the padded test array
    and the test labels and returns exactly two numbers, the loss first
    and the accuracy second.  The line printed right after it shows the
    first as the test loss and the second as the test accuracy, and no
    other [print] statement of the notebook shows a metric.  Accuracy is
    the only metric besides the loss anywhere: every epoch of every
    training reports the loss and the accuracy, on the training and on
    the validation data, and nothing else. *)
Theorem c7_loss_then_accuracy (w : world) :
  exists k, exec (notebook w) kernel0 = inr k /\
    length (positions is_evaluate (log k)) = 4%nat /\
    (forall i m x y r, log k !! i = Some (EvEvaluate m x y r) ->
       x = input_test w /\ y = labels_test_file w /\
       r = [test_value w m "loss"; test_value w m "accuracy"] /\
       log k !! S i = Some (EvPrint [PStr "Test Loss: "; PFloat (test_value w m "loss");
                                     PStr " - Test Accuracy: ";
                                     PFloat (test_value w m "accuracy")])) /\
    (forall line q, In (EvPrint line) (log k) -> In (PFloat q) line ->
       exists m r0 r1, In (EvEvaluate m (input_test w) (labels_test_file w) [r0; r1]) (log k) /\
                       line = metrics_line r0 r1) /\
    (forall values c, evaluate_values values c = values "loss" :: map values (metrics c)) /\
    (forall m x y epochs batch_size vs cbs h l,
       In (EvFit m x y epochs batch_size vs cbs h) (log k) -> In l h ->
       map fst l = ["loss"; "accuracy"; "val_loss"; "val_accuracy"]).
Proof.
  exists (final_kernel w). split; [apply notebook_runs |].
  split; [reflexivity |]. split; [| split; [| split]].
  - intros i m x y r H. cbv [log final_kernel final_log] in *.
    do 30 (destruct i as [| i];
           [try discriminate H;
            cbv [evaluate_event results] in H; injection H as <- <- <- <-;
            repeat split |]).
    discriminate H.
  - intros line q H Hq.
    record_cases H; injection H as <-; cbn [In] in Hq;
      repeat (destruct Hq as [Hq | Hq]; [try discriminate Hq |]); try contradiction;
      match goal with
      | |- context [test_value w ?m "loss"] =>
          exists m, (test_value w m "loss"), (test_value w m "accuracy")
      end;
      (split; [cbv [log final_kernel final_log evaluate_event results In]; tauto
              | reflexivity]).
  - reflexivity.
  - intros m x y epochs batch_size vs cbs h l H Hl.
    destruct (all_runs_stop_by_patience w) as (H0 & H1 & H2 & H3).
    record_cases H; injection H as <- <- <- <- <- <- <- <-;
      match goal with
      | Hr : stops_by_patience w ?m ?r, Hl : In _ (fr_history ?r) |- _ =>
          destruct Hr as (n & cb & _ & _ & Hh & _); rewrite Hh in Hl
      end;
      apply in_map_iff in Hl as (e & <- & _); reflexivity.
Qed.

(** ** C10: the parameters of the LSTM-with-attention model *)

(** C10.  The summary of the model bound to [lstm_model_with_attention]
    lists 10000*32 = 320000 parameters for the embedding,
    4*((32+32)*32+32) = 8320 for the LSTM, 500*32*1+1 = 16001 for the
    final dense layer and none for the input, attention and flatten
    layers: 344321 in all, every one of them trainable. *)
Theorem c10_attention_model_parameters (w : world) :
  exists k mo s, exec (notebook w) kernel0 = inr k /\
    ns_get "lstm_model_with_attention" (globals k) = Some (VModel 3) /\
    models k !! 3%nat = Some mo /\
    summarize (m_arch mo) [] = Some s /\
    In (EvSummary 3 (Some s)) (log k) /\
    map (fun r => (r_layer r, r_params r)) (s_rows s)
      = [(InputLayer [500], 0); (Embedding 10000 32, 10000 * 32);
         (Recurrent LSTM 32 true, 4 * ((32 + 32) * 32 + 32));
         (Attention, 0); (Flatten, 0); (Dense 1 Sigmoid, 500 * 32 * 1 + 1)] /\
    map r_params (s_rows s) = [0; 320000; 8320; 0; 0; 16001] /\
    s_total s = 344321 /\ s_trainable s = 344321 /\ s_non_trainable s = 0.
Proof.
  exists (final_kernel w). eexists _, _. split; [apply notebook_runs |].
  split; [reflexivity |]. split; [reflexivity |]. split; [reflexivity |].
  split; [cbv [log final_kernel final_log In]; do 26 right; left; reflexivity |].
  repeat (split; [reflexivity |]). reflexivity.
Qed.

(** ** C6: the attention layer is called on the LSTM output twice *)

(** C6.  In the graph of the attention model the framework's [Attention]
    layer, created with no argument, is called on the list
    [[rnn_output, rnn_output]]: query and value are both the output of
    the LSTM layer, which returns its whole sequence, of shape (500, 32).
    The attention output has that same shape; it is flattened to 16000
    values, and the flattened vector is the input of the final
    [Dense(1, activation='sigmoid')].  The graph holds one attention node,
    and no other model of the notebook holds any. *)
Theorem c6_self_attention (w : world) :
  exists k mo nodes input output s, exec (notebook w) kernel0 = inr k /\
    models k !! 3%nat = Some mo /\
    m_arch mo = Functional nodes input output /\
    summarize (m_arch mo) [] = Some s /\
    exists rnn_output attention flatten : nat,
      nodes !! rnn_output = Some (mk_node (Recurrent LSTM 32 true) [1%nat]) /\
      nodes !! attention = Some (mk_node Attention [rnn_output; rnn_output]) /\
      nodes !! flatten = Some (mk_node Flatten [attention]) /\
      nodes !! output = Some (mk_node (Dense 1 Sigmoid) [flatten]) /\
      r_shape <$> s_rows s !! rnn_output = Some [500; 32] /\
      r_shape <$> s_rows s !! attention = Some [500; 32] /\
      r_shape <$> s_rows s !! flatten = Some [500 * 32] /\
      r_shape <$> s_rows s !! output = Some [1] /\
      length (List.filter
                (fun n => match n_layer n with Attention => true | _ => false end)
                nodes) = 1%nat /\
      map (fun ma => has_attention (snd ma)) (built (log k)) = [false; false; false; true].
Proof.
  exists (final_kernel w). eexists _, _, _, _, _. split; [apply notebook_runs |].
  split; [reflexivity |]. split; [reflexivity |]. split; [reflexivity |].
  exists 2%nat, 3%nat, 4%nat. repeat (split; [reflexivity |]). reflexivity.
Qed.

(** ** Padding and the loader, on lists *)

Lemma length_last_n {A} (n : nat) (s : list A) :
  length (last_n n s) = Nat.min n (length s).
Proof. unfold last_n. rewrite length_skipn. lia. Qed.

Lemma last_n_is_suffix {A} (n : nat) (s : list A) :
  s = firstn (length s - n) s ++ last_n n s.
Proof. unfold last_n. symmetry. apply firstn_skipn. Qed.

Lemma In_last_n {A} (n : nat) (s : list A) (x : A) : In x (last_n n s) -> In x s.
Proof.
  intros H. rewrite (last_n_is_suffix n s). apply in_or_app. right. exact H.
Qed.

(** Every row the padding writes has [maxlen] entries. *)
Lemma length_pad_row (n : nat) (s : list Z) : length (pad_row n s) = n.
Proof.
  destruct s as [| x s]; cbn [pad_row].
  - apply repeat_length.
  - rewrite length_app, repeat_length, length_last_n. lia.
Qed.

(** A sequence of [maxlen] elements or more keeps its last [maxlen]. *)
Lemma pad_row_truncates (n : nat) (s : list Z) :
  (n <= length s)%nat -> pad_row n s = last_n n s.
Proof.
  intros H. destruct s as [| x s]; cbn [pad_row].
  - cbn in H. replace n with 0%nat by lia. reflexivity.
  - rewrite length_last_n. replace (n - Nat.min n (length (x :: s)))%nat with 0%nat by lia.
    reflexivity.
Qed.

(** A shorter sequence is kept whole, behind as many zeros as it lacks. *)
Lemma pad_row_pads (n : nat) (s : list Z) :
  (length s <= n)%nat -> pad_row n s = repeat 0 (n - length s) ++ s.
Proof.
  intros H. destruct s as [| x s]; cbn [pad_row].
  - cbn. rewrite app_nil_r, Nat.sub_0_r. reflexivity.
  - unfold last_n. replace (length (x :: s) - n)%nat with 0%nat by lia.
    rewrite skipn_0. reflexivity.
Qed.

Lemma In_pad_row (n : nat) (s : list Z) (t : Z) :
  In t (pad_row n s) -> t = 0 \/ In t s.
Proof.
  destruct s as [| x s]; cbn [pad_row]; intros H.
  - left. exact (repeat_spec _ _ _ H).
  - apply in_app_or in H as [H | H].
    + left. exact (repeat_spec _ _ _ H).
    + right. exact (In_last_n _ _ _ H).
Qed.

(** The loader leaves no index outside [0, num_words). *)
Lemma clip_word_in_range (num_words t : Z) :
  oov_char < num_words -> 0 <= clip_word num_words t < num_words.
Proof.
  unfold clip_word, skip_top, oov_char. intros H.
  destruct (0 <=? t) eqn:H0; destruct (t <? num_words) eqn:H1; cbn; lia.
Qed.

Lemma load_reviews_in_range (num_words : Z) (file : list (list Z)) (r : list Z) (t : Z) :
  oov_char < num_words ->
  In r (load_reviews num_words file) -> In t r -> 0 <= t < num_words.
Proof.
  intros Hn Hr Ht. unfold load_reviews in Hr.
  apply in_map_iff in Hr as (x & <- & _).
  apply in_map_iff in Ht as (t0 & <- & _).
  apply clip_word_in_range, Hn.
Qed.

Lemma padded_in_range (file : list (list Z)) (row : list Z) (t : Z) :
  In row (map (pad_row 500) (load_reviews 10000 file)) -> In t row -> 0 <= t < 10000.
Proof.
  intros Hrow Ht. apply in_map_iff in Hrow as (r & <- & Hr).
  apply In_pad_row in Ht as [-> | Ht]; [lia |].
  apply (load_reviews_in_range 10000 file r t); [reflexivity | assumption ..].
Qed.

Lemma lookup_in_table {A} (table : list A) (t : Z) :
  0 <= t < Z.of_nat (length table) -> is_Some (embedding_lookup table t).
Proof.
  intros H. unfold embedding_lookup.
  destruct (t <? 0) eqn:Hneg; [lia |].
  apply lookup_lt_is_Some. lia.
Qed.

(** ** C2: every review becomes a row of 500 indices *)

(** C2.  After the run, [input_train] and [input_test] are bound to the
    arrays the padding step makes of the loaded reviews with
    [maxlen = MAXLEN = 500].  Every row of both has exactly 500 entries:
    a review of 500 indices or more is cut to its last 500, a shorter
    one is kept whole behind the zeros it lacks.  With the 25000 reviews
    of each split of the file, both arrays have shape (25000, 500), the
    shape the notebook prints. *)
Theorem c2_padded_to_maxlen (w : world) :
  len (x_train_file w) = 25000 ->
  len (x_test_file w) = 25000 ->
  exists k a_train a_test, exec (notebook w) kernel0 = inr k /\
    ns_get "MAXLEN" (globals k) = Some (VInt 500) /\
    ns_get "input_train" (globals k) = Some (VArray a_train) /\
    ns_get "input_test" (globals k) = Some (VArray a_test) /\
    In (EvPadSequences 500 a_train) (log k) /\
    In (EvPadSequences 500 a_test) (log k) /\
    In (EvPrint [PStr "input_train shape:"; PShape (shape a_train)]) (log k) /\
    In (EvPrint [PStr "input_test shape:"; PShape (shape a_test)]) (log k) /\
    nd_rows a_train = map (pad_row 500) (load_reviews 10000 (x_train_file w)) /\
    nd_rows a_test = map (pad_row 500) (load_reviews 10000 (x_test_file w)) /\
    Forall (fun row => length row = 500%nat) (nd_rows a_train) /\
    Forall (fun row => length row = 500%nat) (nd_rows a_test) /\
    (forall s : list Z, (500 <= length s)%nat ->
       pad_row 500 s = last_n 500 s /\
       s = firstn (length s - 500) s ++ pad_row 500 s) /\
    (forall s : list Z, (length s <= 500)%nat ->
       pad_row 500 s = repeat 0 (500 - length s) ++ s) /\
    shape a_train = (25000, 500) /\
    shape a_test = (25000, 500).
Proof.
  intros Htrain Htest.
  exists (final_kernel w), (input_train w), (input_test w).
  split; [apply notebook_runs |].
  do 3 (split; [reflexivity |]).
  do 4 (split; [cbv [log final_kernel final_log In]; tauto |]).
  do 2 (split; [reflexivity |]).
  split; [apply List.Forall_forall; intros row Hrow;
          apply in_map_iff in Hrow as (r & <- & _); apply length_pad_row |].
  split; [apply List.Forall_forall; intros row Hrow;
          apply in_map_iff in Hrow as (r & <- & _); apply length_pad_row |].
  split.
  { intros s Hs. rewrite (pad_row_truncates 500 s Hs).
    split; [reflexivity | apply last_n_is_suffix]. }
  split; [intros s Hs; apply pad_row_pads, Hs |].
  unfold shape, input_train, input_test, loaded_train, loaded_test, load_reviews.
  cbn [nd_rows nd_cols]. rewrite !length_map. unfold len in Htrain, Htest.
  rewrite Htrain, Htest. split; reflexivity.
Qed.

(** The theorem at a dataset of the size of the file. *)
Lemma c2_padded_to_maxlen_witness :
  len (x_train_file sized_world) = 25000 /\
  len (x_test_file sized_world) = 25000 /\
  exists k a_train a_test, exec (notebook sized_world) kernel0 = inr k /\
    ns_get "MAXLEN" (globals k) = Some (VInt 500) /\
    ns_get "input_train" (globals k) = Some (VArray a_train) /\
    ns_get "input_test" (globals k) = Some (VArray a_test) /\
    In (EvPadSequences 500 a_train) (log k) /\
    In (EvPadSequences 500 a_test) (log k) /\
    In (EvPrint [PStr "input_train shape:"; PShape (shape a_train)]) (log k) /\
    In (EvPrint [PStr "input_test shape:"; PShape (shape a_test)]) (log k) /\
    nd_rows a_train = map (pad_row 500) (load_reviews 10000 (x_train_file sized_world)) /\
    nd_rows a_test = map (pad_row 500) (load_reviews 10000 (x_test_file sized_world)) /\
    Forall (fun row => length row = 500%nat) (nd_rows a_train) /\
    Forall (fun row => length row = 500%nat) (nd_rows a_test) /\
    (forall s : list Z, (500 <= length s)%nat ->
       pad_row 500 s = last_n 500 s /\
       s = firstn (length s - 500) s ++ pad_row 500 s) /\
    (forall s : list Z, (length s <= 500)%nat ->
       pad_row 500 s = repeat 0 (500 - length s) ++ s) /\
    shape a_train = (25000, 500) /\
    shape a_test = (25000, 500).
Proof.
  assert (Htrain : len (x_train_file sized_world) = 25000).
  { unfold len, sized_world. cbn [x_train_file].
    rewrite repeat_length. apply Z2Nat.id. lia. }
  assert (Htest : len (x_test_file sized_world) = 25000).
  { unfold len, sized_world. cbn [x_test_file].
    rewrite repeat_length. apply Z2Nat.id. lia. }
  split; [exact Htrain |]. split; [exact Htest |].
  exact (c2_padded_to_maxlen sized_world Htrain Htest).
Defined.

(** ** C9: every index fed to a model is inside the embedding table *)

(** C9.  The loader is called with [num_words = VOCAB_SIZE = 10000], so
    every index it returns is in [0, 10000), and padding adds only the
    index 0.  Hence every index of every array given to [fit] or
    [evaluate] is in [0, 10000).  Every model's embedding layer is
    [Embedding(10000, 32)], and in a table of 10000 vectors the lookup
    of each of these indices succeeds. *)
Theorem c9_indices_in_vocabulary (w : world) :
  exists k, exec (notebook w) kernel0 = inr k /\
    In (EvLoadData 10000) (log k) /\
    ns_get "VOCAB_SIZE" (globals k) = Some (VInt 10000) /\
    (forall r t, In r (load_reviews 10000 (x_train_file w)
                       ++ load_reviews 10000 (x_test_file w)) ->
                 In t r -> 0 <= t < 10000) /\
    (forall s t, In t (pad_row 500 s) -> t = 0 \/ In t s) /\
    (forall m a, In (m, a) (built (log k)) -> embedding_of a = Some (Embedding 10000 32)) /\
    (forall e x row t, In e (log k) -> fed e = Some x -> In row (nd_rows x) -> In t row ->
       0 <= t < 10000 /\
       forall (A : Type) (table : list A), length table = Z.to_nat 10000 ->
         is_Some (embedding_lookup table t)).
Proof.
  exists (final_kernel w). split; [apply notebook_runs |].
  split; [cbv [log final_kernel final_log In]; tauto |].
  split; [reflexivity |].
  split.
  { intros r t Hr Ht. apply in_app_or in Hr as [Hr | Hr];
      eapply load_reviews_in_range; try eassumption; reflexivity. }
  split; [intros s t; apply In_pad_row |].
  split.
  { intros m a H.
    change (built (log (final_kernel w)))
      with [(0, stack SimpleRNN); (1, stack LSTM); (2, stack GRU);
            (3, attention_graph)]%nat in H.
    cbn [In] in H.
    repeat (destruct H as [H | H]; [injection H as <- <-; reflexivity |]).
    contradiction. }
  intros e x row t He Hfed Hrow Ht.
  assert (Hrange : 0 <= t < 10000).
  { record_cases He; subst e; cbn [fed] in Hfed; try discriminate Hfed;
      injection Hfed as <-;
      cbv [input_train input_test loaded_train loaded_test nd_rows] in Hrow;
      eapply padded_in_range; eassumption. }
  split; [exact Hrange |].
  intros A table Hlen. apply lookup_in_table. rewrite Hlen. lia.
Qed.

(** ** Actions that leave the dataset alone *)

Lemma ns_get_set_other (name name' : string) (v : value) (ns : namespace) :
  name <> name' -> ns_get name' (ns_set name v ns) = ns_get name' ns.
Proof.
  intros Hne. induction ns as [| [n v0] rest IH]; cbn [ns_set ns_get].
  - apply String.eqb_neq in Hne. rewrite Hne. reflexivity.
  - destruct (String.eqb n name) eqn:E; cbn [ns_get].
    + apply String.eqb_eq in E. subst n.
      apply String.eqb_neq in Hne. rewrite Hne. reflexivity.
    + rewrite IH. reflexivity.
Qed.

Lemma keeps_ret {A} (a : A) : keeps_data (mret a : M A).
Proof. intros k a' k' H. injection H as <- <-. reflexivity. Qed.

Lemma keeps_raise {A} (e : error) : keeps_data (raise e : M A).
Proof. intros k a k' H. discriminate H. Qed.

Lemma keeps_bind {A B} (c : M A) (f : A -> M B) :
  keeps_data c -> (forall a, keeps_data (f a)) -> keeps_data (c ≫= f).
Proof.
  intros Hc Hf k b k' H name Hn. unfold mbind, M_bind in H.
  destruct (c k) as [e | [a k1]] eqn:E; [discriminate H |].
  rewrite (Hf a k1 b k' H name Hn). exact (Hc k a k1 E name Hn).
Qed.

Lemma keeps_lift {A} (r : result A) : keeps_data (lift r).
Proof.
  intros k a k' H. unfold lift in H. destruct r; [discriminate H |].
  injection H as <- <-. reflexivity.
Qed.

Lemma keeps_get (name : string) : keeps_data (get name).
Proof.
  intros k v k' H. unfold get in H.
  destruct (ns_get name (globals k)); [| discriminate H].
  injection H as <- <-. reflexivity.
Qed.

Lemma keeps_emit (e : event) : keeps_data (emit e).
Proof. intros k a k' H. injection H as <- <-. reflexivity. Qed.

(** Assigning to a name that is not one of the dataset's. *)
Lemma keeps_set (name : string) (v : value) :
  existsb (String.eqb name) data_names = false -> keeps_data (set name v).
Proof.
  intros Hname k a k' H n Hn. injection H as <- <-. cbn [globals].
  apply ns_get_set_other. intros ->.
  assert (existsb (String.eqb n) data_names = true); [| congruence].
  apply existsb_exists. exists n. split; [exact Hn | apply String.eqb_refl].
Qed.

Lemma keeps_new_model (a : architecture) : keeps_data (new_model a).
Proof. intros k m k' H. injection H as <- <-. reflexivity. Qed.

Lemma keeps_compile (m : nat) (opt lss : string) (mets : list string) :
  keeps_data (compile m opt lss mets).
Proof.
  intros k a k' H. unfold compile in H.
  destruct (models k !! m); [| discriminate H]. injection H as <- <-. reflexivity.
Qed.

Lemma keeps_summary (m : nat) : keeps_data (summary_ m).
Proof.
  intros k a k' H. unfold summary_ in H.
  destruct (models k !! m); [| discriminate H]. injection H as <- <-. reflexivity.
Qed.

Lemma keeps_EarlyStopping (monitor : string) (patience : nat) :
  keeps_data (EarlyStopping_ monitor patience).
Proof. intros k a k' H. injection H as <- <-. reflexivity. Qed.

(** Training reads the arrays it is given and writes to the model and
    the callbacks; no global name is rebound. *)
Lemma keeps_fit (w : world) (m : nat) (x : ndarray) (y : list Z) (epochs batch_size : Z)
    (vs : Q) (cbs : list nat) :
  keeps_data (fit w m x y epochs batch_size vs cbs).
Proof.
  intros k a k' H. unfold fit in H.
  destruct (models k !! m) as [mo |]; [| discriminate H].
  destruct (m_compiled mo); [| discriminate H]. injection H as <- <-. reflexivity.
Qed.

Lemma keeps_evaluate (w : world) (m : nat) (x : ndarray) (y : list Z) :
  keeps_data (evaluate w m x y).
Proof.
  intros k a k' H. unfold evaluate in H.
  destruct (models k !! m) as [mo |]; [| discriminate H].
  destruct (m_compiled mo); [| discriminate H]. injection H as <- <-. reflexivity.
Qed.

Ltac keeps_step :=
  first
    [ apply keeps_bind; [| intro]
    | apply keeps_ret | apply keeps_raise | apply keeps_lift
    | apply keeps_get | apply keeps_emit
    | apply keeps_set; reflexivity
    | apply keeps_new_model | apply keeps_compile | apply keeps_summary
    | apply keeps_EarlyStopping | apply keeps_fit | apply keeps_evaluate
    | match goal with
      | |- keeps_data (match ?v with _ => _ end) => destruct v
      end ].

Ltac keeps :=
  cbv [get_int get_seqs get_labels get_array get_model get_callback get_results
       get_function index print call build_model build_model2 apply_layer];
  repeat keeps_step.

(** Every statement after the two paddings leaves the dataset alone. *)
Lemma statements_after_padding_keep_data (w : world) :
  Forall keeps_data (skipn 10 (notebook w)).
Proof.
  cbv [notebook cell1 cell2 cell3 cell4 cell5 app skipn].
  repeat (constructor; [keeps |]). constructor.
Qed.

Lemma exec_app (p q : list (M unit)) (k : kernel) :
  exec (p ++ q) k = match exec p k with
                    | inl e => inl e
                    | inr k1 => exec q k1
                    end.
Proof.
  revert k. induction p as [| s p IH]; intros k; cbn [exec app]; [reflexivity |].
  destruct (s k) as [e | [u k1]]; [reflexivity | apply IH].
Qed.

Lemma exec_keeps_data (p : list (M unit)) :
  Forall keeps_data p ->
  forall k k', exec p k = inr k' ->
    forall name, In name data_names -> ns_get name (globals k') = ns_get name (globals k).
Proof.
  induction 1 as [| s p Hs Hp IH]; intros k k' H name Hn; cbn [exec] in H.
  - injection H as <-. reflexivity.
  - destruct (s k) as [e | [u k1]] eqn:E; [discriminate H |].
    rewrite (IH k1 k' H name Hn). exact (Hs k u k1 E name Hn).
Qed.

(** ** C4: the dataset is the same for every model *)

(** C4.  Once the two paddings have run, the names [input_train],
    [y_train], [input_test] and [y_test] are bound to the padded arrays
    and the loaded labels, and they stay bound to them after every later
    statement of the notebook, however far it is run: training and
    evaluation rebind none of them.  All four [fit] calls receive the
    same training array and labels, and all four [evaluate] calls the
    same test array and labels. *)
Theorem c4_dataset_fixed (w : world) :
  exists k0 k,
    exec (firstn 10 (notebook w)) kernel0 = inr k0 /\
    exec (notebook w) kernel0 = inr k /\
    ns_get "input_train" (globals k0) = Some (VArray (input_train w)) /\
    ns_get "y_train" (globals k0) = Some (VLabels (labels_train_file w)) /\
    ns_get "input_test" (globals k0) = Some (VArray (input_test w)) /\
    ns_get "y_test" (globals k0) = Some (VLabels (labels_test_file w)) /\
    (forall n kn, exec (firstn (10 + n) (notebook w)) kernel0 = inr kn ->
       forall name, In name data_names ->
         ns_get name (globals kn) = ns_get name (globals k0)) /\
    (forall m x y epochs batch_size vs cbs,
       keeps_data (fit w m x y epochs batch_size vs cbs)) /\
    (forall m x y, keeps_data (evaluate w m x y)) /\
    (forall m x y epochs batch_size vs cbs h,
       In (EvFit m x y epochs batch_size vs cbs h) (log k) ->
       x = input_train w /\ y = labels_train_file w) /\
    (forall m x y r, In (EvEvaluate m x y r) (log k) ->
       x = input_test w /\ y = labels_test_file w).
Proof.
  eexists _, (final_kernel w).
  split; [cbv -[train load_reviews pad_row summarize]; reflexivity |].
  split; [apply notebook_runs |].
  do 4 (split; [reflexivity |]).
  split.
  { intros n kn H name Hn.
    rewrite <- (take_take_drop (notebook w) 10 n), exec_app in H.
    match type of H with
    | match ?e with _ => _ end = _ =>
        let k0 := fresh "k0" in
        set (k0 := e) in H;
        cbv -[train load_reviews pad_row summarize] in k0; subst k0
    end.
    cbv iota in H.
    rewrite (exec_keeps_data _ (Forall_take _ n _ (statements_after_padding_keep_data w))
               _ _ H name Hn).
    reflexivity. }
  split; [intros; apply keeps_fit |].
  split; [intros; apply keeps_evaluate |].
  split.
  - intros m x y epochs batch_size vs cbs h H.
    record_cases H; injection H as <- <- <- <- <- <- <- <-; split; reflexivity.
  - intros m x y r H.
    record_cases H; injection H as <- <- <- <-; split; reflexivity.
Qed.

(** ** When the training stops early without two failing epochs

    C8 gives one direction: two failing epochs in a row end the
    training.  The other direction depends on the release of the
    framework.  Where the callback forgets its best value when a training
    begins, an early stop always follows two failing epochs.  Where it
    keeps it, the best value of an earlier model counts against the next
    one, and the notebook shares one callback among its four models. *)

Section StopsForCause.
Variable values : nat -> string -> Q.

Let v (e : nat) : Q := values e "val_loss".

Lemma fit_loop_stops_for_cause (fuel : nat) :
  forall (epoch : nat) (cb : EarlyStopping) (history : list logs),
    watches_val_loss cb ->
    (forall b, es_best cb = Some b -> exists j, (j < epoch)%nat /\ (v j == b)%Q) ->
    ((1 <= es_wait cb)%nat -> exists e, S e = epoch /\ fails_to_improve v e) ->
    let r := fit_loop (epoch_logs values) [0%nat] fuel epoch [cb] history in
    (fr_stopped r = false -> length (fr_history r) = (length history + fuel)%nat) /\
    (fr_stopped r = true ->
       exists e, (length (fr_history r) + epoch = length history + S (S e))%nat /\
                 fails_to_improve v e /\ fails_to_improve v (S e)).
Proof.
  induction fuel as [| fuel IH]; intros epoch cb history Hw Hbest Hwait; cbv zeta.
  - cbn [fit_loop fr_stopped fr_history]. split; [intros _; lia | discriminate].
  - cbn [fit_loop callbacks_on_epoch_end fold_left fst snd].
    change ([cb] !! 0%nat) with (Some cb). cbn [fst snd orb].
    destruct (on_epoch_end_cases values cb epoch Hw) as (Hw1 & Hcase).
    set (step := on_epoch_end cb epoch (epoch_logs values epoch)) in *.
    change (<[0%nat := fst step]> [cb]) with [fst step].
    assert (Hfail : is_improvement cb (values epoch "val_loss") = false ->
                    fails_to_improve v epoch).
    { intros Hi. destruct (es_best cb) as [b |] eqn:Hb;
        [| unfold is_improvement in Hi; rewrite Hb in Hi; discriminate Hi].
      destruct (Hbest b eq_refl) as (j & Hj & Hjb).
      apply (improvement_below_best cb (values epoch "val_loss") b Hw Hb) in Hi.
      exists j. split; [exact Hj |]. unfold v. unfold v in Hjb. lra. }
    destruct Hcase as [(Hi & Hb1 & Hw0 & Hs) | (Hi & Hb1 & Hw0 & Hs)]; rewrite Hs.
    + specialize (IH (S epoch) (fst step) (history ++ [epoch_logs values epoch]) Hw1).
      destruct IH as (IHa & IHb).
      * intros b Hb. rewrite Hb1 in Hb. injection Hb as <-.
        exists epoch. split; [lia | reflexivity].
      * rewrite Hw0. lia.
      * rewrite length_app in IHa, IHb. cbn [length] in IHa, IHb. split.
        -- intros Hst. rewrite (IHa Hst). lia.
        -- intros Hst. destruct (IHb Hst) as (e & He & Hf1 & Hf2).
           exists e. split; [lia | split; assumption].
    + destruct ((2 <=? S (es_wait cb))%nat && (0 <? epoch)%nat) eqn:Hgo.
      * cbn [fr_stopped fr_history]. split; [discriminate |]. intros _.
        apply andb_true_iff in Hgo as (Hgo1 & Hgo2).
        apply Nat.leb_le in Hgo1. apply Nat.ltb_lt in Hgo2.
        destruct (Hwait ltac:(lia)) as (e & He & Hf).
        exists e. rewrite length_app. cbn [length].
        split; [lia |]. split; [exact Hf |]. rewrite He. exact (Hfail Hi).
      * specialize (IH (S epoch) (fst step) (history ++ [epoch_logs values epoch]) Hw1).
        destruct IH as (IHa & IHb).
        -- intros b Hb. rewrite Hb1 in Hb. destruct (Hbest b Hb) as (j & Hj & Hjb).
           exists j. split; [lia | exact Hjb].
        -- intros _. exists epoch. split; [reflexivity | exact (Hfail Hi)].
        -- rewrite length_app in IHa, IHb. cbn [length] in IHa, IHb. split.
           ++ intros Hst. rewrite (IHa Hst). lia.
           ++ intros Hst. destruct (IHb Hst) as (e & He & Hf1 & Hf2).
              exists e. split; [lia | split; assumption].
Qed.

(** With a release that resets the best value, a training of fewer than
    ten epochs ended on two failing epochs in a row. *)
Lemma train_stops_for_cause (cb : EarlyStopping) :
  watches_val_loss cb ->
  let r := train true values config 10 (2 # 10) [0%nat] [cb] in
  (length (fr_history r) < 10)%nat ->
  exists e, length (fr_history r) = S (S e) /\
            fails_to_improve v e /\ fails_to_improve v (S e).
Proof.
  intros Hw r Hlt.
  destruct (fit_loop_stops_for_cause 10 0 (on_train_begin true cb) []) as (Ha & Hb).
  - destruct Hw as (Hm & Hp & Hd). repeat split; assumption.
  - intros b Hb. discriminate Hb.
  - cbn [on_train_begin es_wait]. lia.
  - change (fit_loop (epoch_logs values) [0%nat] 10 0 [on_train_begin true cb] [])
      with r in Ha, Hb.
    destruct (fr_stopped r).
    + destruct (Hb eq_refl) as (e & He & Hf1 & Hf2).
      exists e. cbn [length] in He. split; [lia | split; assumption].
    + specialize (Ha eq_refl). cbn [length] in Ha. lia.
Qed.

End StopsForCause.

(** In a release that resets the best value, every training of the
    notebook that ends before its tenth epoch ends on two epochs in a row
    that failed to improve. *)
Lemma early_stop_has_cause_when_best_resets (w : world) :
  resets_best w = true ->
  forall m x y epochs batch_size vs cbs h,
    In (EvFit m x y epochs batch_size vs cbs h) (log (final_kernel w)) ->
    (length h < 10)%nat ->
    exists e, length h = S (S e) /\
              fails_to_improve (val_loss w m) e /\ fails_to_improve (val_loss w m) (S e).
Proof.
  intros Hr m x y epochs batch_size vs cbs h H.
  destruct (all_runs_stop_by_patience w)
    as ((n0 & c0 & Hc0 & Hw0 & _) & (n1 & c1 & Hc1 & Hw1 & _)
        & (n2 & c2 & Hc2 & Hw2 & _) & _).
  record_cases H; injection H as <- <- <- <- <- <- <- <-.
  - unfold run_rnn, run. rewrite Hr.
    apply train_stops_for_cause. repeat split.
  - unfold run_lstm, run. rewrite Hr, Hc0. apply train_stops_for_cause, Hw0.
  - unfold run_gru, run. rewrite Hr, Hc1. apply train_stops_for_cause, Hw1.
  - unfold run_attention, run. rewrite Hr, Hc2. apply train_stops_for_cause, Hw2.
Qed.

(** In the run the notebook records, the GRU training ends after its
    second epoch although both of its epochs improved: the callback still
    held the best validation loss of the LSTM training before it. *)
Lemma recorded_gru_run_stops_while_improving :
  exists k, exec (notebook (recorded_world false)) kernel0 = inr k /\
    In (2%nat, 2%nat) (epochs_run (log k)) /\
    ~ fails_to_improve (val_loss (recorded_world false) 2) 0 /\
    ~ fails_to_improve (val_loss (recorded_world false) 2) 1 /\
    es_best <$> fr_callbacks (run_lstm (recorded_world false)) = [Some (3055 # 10000)].
Proof.
  eexists. split; [vm_compute; reflexivity |].
  split; [cbn; tauto |]. split; [| split].
  - intros (j & Hj & _). lia.
  - intros (j & Hj & Hle). assert (j = 0%nat) as -> by lia.
    vm_compute in Hle. apply Hle. reflexivity.
  - vm_compute. reflexivity.
Qed.

(** * Further properties of the notebook's code *)

(** ** The build functions, from any state of the kernel *)

Lemma lookup_new {A} (l : list A) (x : A) : (l ++ [x]) !! length l = Some x.
Proof. apply list_lookup_middle. reflexivity. Qed.

Lemma insert_new {A} (l : list A) (x y : A) : <[length l := y]> (l ++ [x]) = l ++ [y].
Proof.
  rewrite <- (Nat.add_0_r (length l)) at 1. rewrite insert_app_r. reflexivity.
Qed.

(** Building and compiling: the new model takes the next place in the
    store and [compile] finds it there. *)
Lemma new_model_then_compile (a : architecture) (k : kernel) :
  (model ← new_model a;
   compile model "adam" "binary_crossentropy" ["accuracy"];; mret model) k
  = inr (length (models k), with_new_model k a).
Proof.
  unfold mbind, M_bind, new_model, compile, mret, M_ret. cbn [models].
  rewrite lookup_new, insert_new. cbn [globals callbacks log m_arch m_stop_training
                                       m_epochs_trained].
  unfold with_new_model, config. rewrite <- app_assoc. reflexivity.
Qed.

Lemma bind_ok {A B} (c : M A) (f : A -> M B) (k k1 : kernel) (a : A) :
  c k = inr (a, k1) -> (c ≫= f) k = f a k1.
Proof. intros H. unfold mbind, M_bind. rewrite H. reflexivity. Qed.

Lemma bind_raises {A B} (c : M A) (f : A -> M B) (k : kernel) (e : error) :
  c k = inl e -> (c ≫= f) k = inl e.
Proof. intros H. unfold mbind, M_bind. rewrite H. reflexivity. Qed.

Lemma get_ok (name : string) (k : kernel) (v : value) :
  ns_get name (globals k) = Some v -> get name k = inr (v, k).
Proof. intros H. unfold get. rewrite H. reflexivity. Qed.

Lemma get_int_ok (name : string) (k : kernel) (z : Z) :
  ns_get name (globals k) = Some (VInt z) -> get_int name k = inr (z, k).
Proof. intros H. unfold get_int. rewrite (bind_ok _ _ _ _ _ (get_ok _ _ _ H)). reflexivity. Qed.

Lemma build_model_runs (k : kernel) (c : rnn_kind) (v : Z) :
  ns_get "VOCAB_SIZE" (globals k) = Some (VInt v) ->
  build_model c k = inr (length (models k), with_new_model k (stack_of v c)).
Proof.
  intros Hv. unfold build_model.
  rewrite (bind_ok _ _ _ _ _ (get_int_ok _ _ _ Hv)).
  apply new_model_then_compile.
Qed.

Lemma build_model2_runs (k : kernel) (c : rnn_kind) (u l v : Z) :
  ns_get "MAXLEN" (globals k) = Some (VInt l) ->
  ns_get "VOCAB_SIZE" (globals k) = Some (VInt v) ->
  build_model2 c u k = inr (length (models k), with_new_model k (attention_graph_of l v c u)).
Proof.
  intros Hl Hv. unfold build_model2.
  rewrite (bind_ok _ _ _ _ _ (get_int_ok _ _ _ Hl)).
  rewrite (bind_ok _ _ _ _ _ (get_int_ok _ _ _ Hv)).
  cbv [apply_layer length app]. apply new_model_then_compile.
Qed.

(** A build function that does not find its constants raises, whatever
    else the kernel holds. *)
Lemma get_int_raises (name : string) (k : kernel) :
  get_int name k
  = match ns_get name (globals k) with
    | None => inl (NameError name)
    | Some (VInt z) => inr (z, k)
    | Some _ => inl (TypeError name)
    end.
Proof.
  unfold get_int, get, mbind, M_bind.
  destruct (ns_get name (globals k)) as [[] |]; reflexivity.
Qed.

(** X1.  [build_model] reads [VOCAB_SIZE] when it is called, not when it
    is defined.  With the name unbound the call raises [NameError] for
    it.  With the name bound to a positive integer the call returns the
    next free model reference, for a new compiled model whose embedding
    has as many rows as [VOCAB_SIZE] says now; the names, the callbacks
    and the models already there are unchanged.  (The module name [tf]
    is taken as bound, as it is in the cell that defines the function.) *)
Theorem build_model_on_any_kernel (k : kernel) (c : rnn_kind) :
  (ns_get "VOCAB_SIZE" (globals k) = None ->
   build_model c k = inl (NameError "VOCAB_SIZE")) /\
  (forall v, ns_get "VOCAB_SIZE" (globals k) = Some (VInt v) -> 0 < v ->
   build_model c k
   = inr (length (models k),
          mk_kernel (globals k)
            (models k ++ [mk_model (Sequential [Embedding v 32; Recurrent c 32 false;
                                                Dense 1 Sigmoid])
                                   (Some (mk_compile "adam" "binary_crossentropy"
                                                     ["accuracy"]))
                                   false 0])
            (callbacks k)
            (log k ++ [EvBuild (length (models k))
                         (Sequential [Embedding v 32; Recurrent c 32 false;
                                      Dense 1 Sigmoid]);
                       EvCompile (length (models k))
                         (mk_compile "adam" "binary_crossentropy" ["accuracy"])]))).
Proof.
  split.
  - intros Hv. unfold build_model. apply bind_raises.
    rewrite get_int_raises, Hv. reflexivity.
  - intros v Hv _. apply (build_model_runs k c v Hv).
Qed.

(** X2.  [build_model2] reads [MAXLEN] first and [VOCAB_SIZE] second,
    both when it is called: it raises [NameError] for the first of the
    two that is unbound.  With both bound to positive integers it adds
    one compiled model to the store, whose graph feeds the recurrent
    layer's whole output sequence to the attention layer twice; its
    input length is the current [MAXLEN], its embedding has [VOCAB_SIZE]
    rows and is as wide as the recurrent layer.  Nothing else in the
    kernel changes. *)
Theorem build_model2_on_any_kernel (k : kernel) (c : rnn_kind) (u : Z) :
  (ns_get "MAXLEN" (globals k) = None ->
   build_model2 c u k = inl (NameError "MAXLEN")) /\
  (forall l, ns_get "MAXLEN" (globals k) = Some (VInt l) -> 0 < l ->
   ns_get "VOCAB_SIZE" (globals k) = None ->
   build_model2 c u k = inl (NameError "VOCAB_SIZE")) /\
  (forall l v,
   ns_get "MAXLEN" (globals k) = Some (VInt l) ->
   ns_get "VOCAB_SIZE" (globals k) = Some (VInt v) ->
   0 < l -> 0 < v -> 0 < u ->
   let graph :=
     Functional [mk_node (InputLayer [l]) [];
                 mk_node (Embedding v u) [0%nat];
                 mk_node (Recurrent c u true) [1%nat];
                 mk_node Attention [2%nat; 2%nat];
                 mk_node Flatten [3%nat];
                 mk_node (Dense 1 Sigmoid) [4%nat]] 0 5 in
   let config := mk_compile "adam" "binary_crossentropy" ["accuracy"] in
   build_model2 c u k
   = inr (length (models k),
          mk_kernel (globals k)
            (models k ++ [mk_model graph (Some config) false 0])
            (callbacks k)
            (log k ++ [EvBuild (length (models k)) graph;
                       EvCompile (length (models k)) config]))).
Proof.
  split; [| split].
  - intros Hl. unfold build_model2. apply bind_raises.
    rewrite get_int_raises, Hl. reflexivity.
  - intros l Hl _ Hv. unfold build_model2.
    rewrite (bind_ok _ _ _ _ _ (get_int_ok _ _ _ Hl)).
    apply bind_raises. rewrite get_int_raises, Hv. reflexivity.
  - intros l v Hl Hv _ _ _. apply (build_model2_runs k c u l v Hl Hv).
Qed.

(** ** The size of the models the build functions make *)



Lemma attention_graph_summary (l v u : Z) (c : rnn_kind) :
  summarize (attention_graph_of l v c u) []
  = Some (mk_summary
            [mk_row (InputLayer [l]) [l] 0;
             mk_row (Embedding v u) [l; u] (v * u);
             mk_row (Recurrent c u true) [l; u] (cell_params c u u);
             mk_row Attention [l; u] 0;
             mk_row Flatten [l * (u * 1)] 0;
             mk_row (Dense 1 Sigmoid) [1] (l * (u * 1) * 1 + 1)]
            (0 + (v * u + (cell_params c u u + (0 + (0 + (l * (u * 1) * 1 + 1 + 0))))))
            (0 + (v * u + (cell_params c u u + (0 + (0 + (l * (u * 1) * 1 + 1 + 0))))) - 0)
            0).
Proof.
  unfold summarize, attention_graph_of, graph_of, fst.
  destruct c; cbn; rewrite Z.eqb_refl; reflexivity.
Qed.

(** X4.  For every cell, every number of units [u] and every [MAXLEN]
    and [VOCAB_SIZE], the graph [build_model2] makes is well shaped: the
    attention layer gets the same tensor as query and as value, so their
    widths agree, and its output has the shape (MAXLEN, u) of the
    recurrent layer's.  The model gives one score, and its dense layer
    holds [MAXLEN * u + 1] weights: unlike the stacked models, its size
    grows with the length of the rows. *)
Theorem attention_model_size (c : rnn_kind) (u l v : Z) :
  0 < u -> 0 < l -> 0 < v ->
  let a := Functional [mk_node (InputLayer [l]) [];
                       mk_node (Embedding v u) [0%nat];
                       mk_node (Recurrent c u true) [1%nat];
                       mk_node Attention [2%nat; 2%nat];
                       mk_node Flatten [3%nat];
                       mk_node (Dense 1 Sigmoid) [4%nat]] 0 5 in
  output_shape a [] = Some [1] /\
  (map r_shape <$> (s_rows <$> summarize a []))
    = Some [[l]; [l; u]; [l; u]; [l; u]; [l * u]; [1]] /\
  (map r_params <$> (s_rows <$> summarize a []))
    = Some [0; v * u;
            match c with
            | SimpleRNN => (u + u) * u + u
            | LSTM => 4 * ((u + u) * u + u)
            | GRU => 3 * ((u + u) * u + 2 * u)
            end;
            0; 0; l * u + 1] /\
  (s_non_trainable <$> summarize a []) = Some 0.
Proof.
  intros _ _ _. cbv zeta.
  change (Functional _ 0 5) with (attention_graph_of l v c u).
  unfold output_shape. rewrite attention_graph_summary.
  cbn [fmap option_fmap option_map s_rows s_non_trainable map r_shape r_params
       graph_of attention_graph_of snd lookup list_lookup].
  rewrite !Z.mul_1_r. destruct c; repeat split; reflexivity.
Qed.

(** The theorem at the graph of the notebook. *)
Lemma attention_model_size_witness :
  0 < 32 /\ 0 < 500 /\ 0 < 10000 /\
  output_shape attention_graph [] = Some [1] /\
  (map r_shape <$> (s_rows <$> summarize attention_graph []))
    = Some [[500]; [500; 32]; [500; 32]; [500; 32]; [16000]; [1]] /\
  (map r_params <$> (s_rows <$> summarize attention_graph []))
    = Some [0; 320000; 8320; 0; 0; 16001] /\
  (s_non_trainable <$> summarize attention_graph []) = Some 0.
Proof.
  split; [reflexivity |]. split; [reflexivity |]. split; [reflexivity |].
  exact (attention_model_size LSTM 32 500 10000 eq_refl eq_refl eq_refl).
Defined.

(** ** The cells that train a model, from any state of the kernel *)

Lemma ns_get_set_same (name : string) (v : value) (ns : namespace) :
  ns_get name (ns_set name v ns) = Some v.
Proof.
  induction ns as [| [n v0] rest IH]; cbn [ns_set ns_get].
  - rewrite String.eqb_refl. reflexivity.
  - destruct (String.eqb n name) eqn:E; cbn [ns_get]; rewrite E; [reflexivity | exact IH].
Qed.

Lemma bind_returns {A B} (c : M A) (f : A -> M B) (k k2 : kernel) (b : B) :
  (c ≫= f) k = inr (b, k2) -> exists a k1, c k = inr (a, k1) /\ f a k1 = inr (b, k2).
Proof.
  unfold mbind, M_bind. destruct (c k) as [e | [a k1]]; [discriminate |].
  intros H. exists a, k1. split; [reflexivity | exact H].
Qed.

Lemma get_returns (name : string) (k k1 : kernel) (v : value) :
  get name k = inr (v, k1) -> k1 = k /\ ns_get name (globals k) = Some v.
Proof.
  unfold get. destruct (ns_get name (globals k)); [| discriminate].
  intros H. injection H as <- <-. split; reflexivity.
Qed.

(** A typed read returns only what the name is bound to, and leaves the
    kernel as it is. *)
Ltac typed_read get_x :=
  intros H; unfold get_x in H;
  apply bind_returns in H as (v & k0 & Hget & H);
  apply get_returns in Hget as (-> & Hget);
  destruct v; try discriminate H; injection H as <- <-; split; [reflexivity | exact Hget].

Lemma get_model_returns (name : string) (k k1 : kernel) (m : nat) :
  get_model name k = inr (m, k1) -> k1 = k /\ ns_get name (globals k) = Some (VModel m).
Proof. typed_read get_model. Qed.

Lemma get_array_returns (name : string) (k k1 : kernel) (a : ndarray) :
  get_array name k = inr (a, k1) -> k1 = k /\ ns_get name (globals k) = Some (VArray a).
Proof. typed_read get_array. Qed.

Lemma get_labels_returns (name : string) (k k1 : kernel) (y : list Z) :
  get_labels name k = inr (y, k1) -> k1 = k /\ ns_get name (globals k) = Some (VLabels y).
Proof. typed_read get_labels. Qed.

Lemma get_int_returns (name : string) (k k1 : kernel) (z : Z) :
  get_int name k = inr (z, k1) -> k1 = k /\ ns_get name (globals k) = Some (VInt z).
Proof. typed_read get_int. Qed.

Lemma get_callback_returns (name : string) (k k1 : kernel) (c : nat) :
  get_callback name k = inr (c, k1) -> k1 = k /\ ns_get name (globals k) = Some (VCallback c).
Proof. typed_read get_callback. Qed.

Lemma get_results_returns (name : string) (k k1 : kernel) (r : list Q) :
  get_results name k = inr (r, k1) -> k1 = k /\ ns_get name (globals k) = Some (VResults r).
Proof. typed_read get_results. Qed.

Ltac typed_read_ok get_x H :=
  unfold get_x; rewrite (bind_ok _ _ _ _ _ (get_ok _ _ _ H)); reflexivity.

Lemma get_model_ok (name : string) (k : kernel) (m : nat) :
  ns_get name (globals k) = Some (VModel m) -> get_model name k = inr (m, k).
Proof. intros H. typed_read_ok get_model H. Qed.

Lemma get_array_ok (name : string) (k : kernel) (a : ndarray) :
  ns_get name (globals k) = Some (VArray a) -> get_array name k = inr (a, k).
Proof. intros H. typed_read_ok get_array H. Qed.

Lemma get_labels_ok (name : string) (k : kernel) (y : list Z) :
  ns_get name (globals k) = Some (VLabels y) -> get_labels name k = inr (y, k).
Proof. intros H. typed_read_ok get_labels H. Qed.

Lemma get_callback_ok (name : string) (k : kernel) (c : nat) :
  ns_get name (globals k) = Some (VCallback c) -> get_callback name k = inr (c, k).
Proof. intros H. typed_read_ok get_callback H. Qed.

Lemma get_results_ok (name : string) (k : kernel) (r : list Q) :
  ns_get name (globals k) = Some (VResults r) -> get_results name k = inr (r, k).
Proof. intros H. typed_read_ok get_results H. Qed.

Lemma fit_returns (w : world) (m : nat) (x : ndarray) (y : list Z) (epochs b : Z) (vs : Q)
    (cbs : list nat) (k k1 : kernel) (h : list logs) :
  fit w m x y epochs b vs cbs k = inr (h, k1) ->
  exists mo c, models k !! m = Some mo /\ m_compiled mo = Some c /\
    let r := train (resets_best w) (epoch_value w m) c epochs vs cbs (callbacks k) in
    h = fr_history r /\
    k1 = mk_kernel (globals k)
           (<[m := mk_model (m_arch mo) (Some c) (fr_stopped r)
                            (m_epochs_trained mo + length (fr_history r))]> (models k))
           (fr_callbacks r)
           (log k ++ [EvFit m x y epochs b vs cbs (fr_history r)]).
Proof.
  unfold fit. destruct (models k !! m) as [mo |]; [| discriminate].
  destruct (m_compiled mo) as [c |] eqn:Hc; [| discriminate].
  intros H. injection H as <- <-. exists mo, c.
  split; [reflexivity |]. split; [exact Hc |]. cbv zeta. split; reflexivity.
Qed.

Lemma evaluate_returns (w : world) (m : nat) (x : ndarray) (y : list Z)
    (k k1 : kernel) (r : list Q) :
  evaluate w m x y k = inr (r, k1) ->
  exists mo c, models k !! m = Some mo /\ m_compiled mo = Some c /\
    r = evaluate_values (test_value w m) c /\
    k1 = mk_kernel (globals k) (models k) (callbacks k) (log k ++ [EvEvaluate m x y r]).
Proof.
  unfold evaluate. destruct (models k !! m) as [mo |]; [| discriminate].
  destruct (m_compiled mo) as [c |] eqn:Hc; [| discriminate].
  intros H. injection H as <- <-. exists mo, c.
  split; [reflexivity |]. split; [exact Hc |]. split; reflexivity.
Qed.

Lemma index_returns (r : list Q) (i : nat) (k k1 : kernel) (q : Q) :
  index r i k = inr (q, k1) -> k1 = k /\ r !! i = Some q.
Proof.
  unfold index. destruct (r !! i); [| discriminate].
  intros H. injection H as <- <-. split; reflexivity.
Qed.

Lemma evaluate_values_index (values : string -> Q) (c : compile_config) :
  evaluate_values values c !! 0%nat = Some (values "loss") /\
  evaluate_values values c !! 1%nat = values <$> head (metrics c).
Proof. unfold evaluate_values. destruct (metrics c); split; reflexivity. Qed.

(** A training cell on a kernel that holds what it reads. *)
Lemma training_cell_runs (w : world) (k : kernel) (mn hn rn : string)
    (m : nat) (mo : model) (c : compile_config) (x xt : ndarray) (y yt : list Z)
    (b : Z) (cb : nat) :
  hn <> mn -> hn <> "input_test" -> hn <> "y_test" ->
  ns_get mn (globals k) = Some (VModel m) ->
  models k !! m = Some mo -> m_compiled mo = Some c -> metrics c <> [] ->
  ns_get "input_train" (globals k) = Some (VArray x) ->
  ns_get "y_train" (globals k) = Some (VLabels y) ->
  ns_get "BATCH_SIZE" (globals k) = Some (VInt b) ->
  ns_get "callback" (globals k) = Some (VCallback cb) ->
  ns_get "input_test" (globals k) = Some (VArray xt) ->
  ns_get "y_test" (globals k) = Some (VLabels yt) ->
  exec (training_cell w mn hn rn) k
  = inr (after_training_cell w k hn rn m mo c x xt y yt b cb).
Proof.
  intros Hn1 Hn2 Hn3 Hm Hmo Hc Hmet Hx Hy Hb Hcb Hxt Hyt.
  unfold training_cell. cbn [exec].
  (* the training statement *)
  rewrite (bind_ok _ _ _ _ _ (get_model_ok _ _ _ Hm)).
  rewrite (bind_ok _ _ _ _ _ (get_array_ok _ _ _ Hx)).
  rewrite (bind_ok _ _ _ _ _ (get_labels_ok _ _ _ Hy)).
  rewrite (bind_ok _ _ _ _ _ (get_int_ok _ _ _ Hb)).
  rewrite (bind_ok _ _ _ _ _ (get_callback_ok _ _ _ Hcb)).
  unfold mbind at 1, M_bind at 1. unfold fit at 1. rewrite Hmo, Hc.
  cbn [set globals models callbacks log].
  set (r := train (resets_best w) (epoch_value w m) c 10 (2 # 10) [cb] (callbacks k)).
  (* the evaluation statement *)
  match goal with
  | |- context [(get_model mn ≫= _) ?k1'] => set (k1 := k1')
  end.
  assert (Hm' : ns_get mn (globals k1) = Some (VModel m))
    by (cbn [globals k1]; rewrite ns_get_set_other; assumption).
  assert (Hxt' : ns_get "input_test" (globals k1) = Some (VArray xt))
    by (cbn [globals k1]; rewrite ns_get_set_other; assumption).
  assert (Hyt' : ns_get "y_test" (globals k1) = Some (VLabels yt))
    by (cbn [globals k1]; rewrite ns_get_set_other; assumption).
  rewrite (bind_ok _ _ _ _ _ (get_model_ok _ _ _ Hm')).
  rewrite (bind_ok _ _ _ _ _ (get_array_ok _ _ _ Hxt')).
  rewrite (bind_ok _ _ _ _ _ (get_labels_ok _ _ _ Hyt')).
  unfold mbind at 1, M_bind at 1. unfold evaluate at 1. subst k1. cbn [models].
  rewrite list_lookup_insert_eq by (eapply lookup_lt_Some; eassumption).
  cbn [m_compiled set globals models callbacks log].
  (* the print statement *)
  match goal with
  | |- context [(get_results rn ≫= _) ?k2'] => set (k2 := k2')
  end.
  assert (Hr : ns_get rn (globals k2)
               = Some (VResults (evaluate_values (test_value w m) c)))
    by (cbn [globals k2]; apply ns_get_set_same).
  rewrite (bind_ok _ _ _ _ _ (get_results_ok _ _ _ Hr)). subst k2.
  destruct (evaluate_values_index (test_value w m) c) as (H0 & H1).
  destruct (metrics c) as [| a rest] eqn:Ea; [contradiction |].
  unfold index. rewrite H0, H1. cbn [head fmap option_fmap option_map].
  unfold mbind, M_bind, mret, M_ret, print, emit. cbn [globals models callbacks log].
  unfold after_training_cell. fold r. rewrite Ea. cbn [hd].
  rewrite <- !app_assoc. reflexivity.
Qed.

Ltac next_statement H E :=
  match type of H with
  | match ?t with _ => _ end = _ =>
      let e := fresh "e" in let u := fresh "u" in let k1 := fresh "k" in
      destruct t as [e | [u k1]] eqn:E; [discriminate H |]
  end.

(** A training cell that runs to its end found what it reads. *)
Lemma training_cell_needs (w : world) (k k' : kernel) (mn hn rn : string) :
  hn <> mn -> hn <> "input_test" -> hn <> "y_test" ->
  exec (training_cell w mn hn rn) k = inr k' -> ready_to_train mn k.
Proof.
  intros Hn1 Hn2 Hn3 H. unfold training_cell in H. cbn [exec] in H.
  next_statement H E1. next_statement H E2. next_statement H E3. clear H.
  (* the training statement *)
  apply bind_returns in E1 as (m & ka & Hm & E1).
  apply get_model_returns in Hm as (-> & Hm).
  apply bind_returns in E1 as (x & ka & Hx & E1).
  apply get_array_returns in Hx as (-> & Hx).
  apply bind_returns in E1 as (y & ka & Hy & E1).
  apply get_labels_returns in Hy as (-> & Hy).
  apply bind_returns in E1 as (b & ka & Hb & E1).
  apply get_int_returns in Hb as (-> & Hb).
  apply bind_returns in E1 as (cb & ka & Hcb & E1).
  apply get_callback_returns in Hcb as (-> & Hcb).
  apply bind_returns in E1 as (h & kf & Hfit & E1).
  apply fit_returns in Hfit as (mo & c & Hmo & Hc & Hh & ->).
  injection E1 as _ <-.
  (* the evaluation statement *)
  apply bind_returns in E2 as (m2 & ka & Hm2 & E2).
  apply get_model_returns in Hm2 as (-> & Hm2).
  cbn [globals] in Hm2. rewrite ns_get_set_other in Hm2 by assumption.
  assert (m2 = m) as -> by congruence.
  apply bind_returns in E2 as (xt & ka & Hxt & E2).
  apply get_array_returns in Hxt as (-> & Hxt).
  cbn [globals] in Hxt. rewrite ns_get_set_other in Hxt by assumption.
  apply bind_returns in E2 as (yt & ka & Hyt & E2).
  apply get_labels_returns in Hyt as (-> & Hyt).
  cbn [globals] in Hyt. rewrite ns_get_set_other in Hyt by assumption.
  apply bind_returns in E2 as (r & ke & Hev & E2).
  apply evaluate_returns in Hev as (mo2 & c2 & Hmo2 & Hc2 & Hr & ->).
  cbn [models] in Hmo2.
  rewrite list_lookup_insert_eq in Hmo2 by (eapply lookup_lt_Some; eassumption).
  injection Hmo2 as <-. cbn [m_compiled] in Hc2. injection Hc2 as <-.
  injection E2 as _ <-.
  (* the print statement *)
  apply bind_returns in E3 as (r' & ka & Hr' & E3).
  apply get_results_returns in Hr' as (-> & Hr').
  cbn [globals] in Hr'. rewrite ns_get_set_same in Hr'. injection Hr' as <-.
  apply bind_returns in E3 as (r0 & ka & _ & E3).
  apply bind_returns in E3 as (r1 & kb & Hr1 & _).
  apply index_returns in Hr1 as (_ & Hr1).
  exists m, mo, c, x, xt, y, yt, b, cb.
  repeat (split; [assumption |]).
  split.
  { intros Hnil. subst r. unfold evaluate_values in Hr1. rewrite Hnil in Hr1.
    discriminate Hr1. }
  repeat (split; [assumption |]). assumption.
Qed.

Lemma after_training_cell_effect (w : world) (k : kernel) (mn hn rn : string)
    (m : nat) (mo : model) (c : compile_config) (x xt : ndarray) (y yt : list Z)
    (b : Z) (cb : nat) :
  hn <> rn ->
  ns_get mn (globals k) = Some (VModel m) ->
  models k !! m = Some mo -> m_compiled mo = Some c -> metrics c <> [] ->
  ns_get "input_train" (globals k) = Some (VArray x) ->
  ns_get "y_train" (globals k) = Some (VLabels y) ->
  ns_get "BATCH_SIZE" (globals k) = Some (VInt b) ->
  ns_get "callback" (globals k) = Some (VCallback cb) ->
  ns_get "input_test" (globals k) = Some (VArray xt) ->
  ns_get "y_test" (globals k) = Some (VLabels yt) ->
  training_cell_effect mn hn rn k (after_training_cell w k hn rn m mo c x xt y yt b cb).
Proof.
  intros Hn Hm Hmo Hc Hmet Hx Hy Hb Hcb Hxt Hyt.
  destruct (evaluate_values_index (test_value w m) c) as (H0 & H1).
  destruct (metrics c) as [| a rest] eqn:Ea; [contradiction |].
  cbn [head fmap option_fmap option_map] in H1.
  set (r := train (resets_best w) (epoch_value w m) c 10 (2 # 10) [cb] (callbacks k)).
  exists m, mo,
    (mk_model (m_arch mo) (Some c) (fr_stopped r)
              (m_epochs_trained mo + length (fr_history r))),
    x, xt, y, yt, b, cb, (fr_history r), (evaluate_values (test_value w m) c),
    (test_value w m "loss"), (test_value w m a).
  unfold after_training_cell. fold r. rewrite Ea. cbn [globals models log hd].
  split; [exact H0 |]. split; [exact H1 |].
  repeat (split; [assumption |]).
  split; [reflexivity |].
  split; [rewrite ns_get_set_other by (intros E; apply Hn; symmetry; exact E);
          apply ns_get_set_same |].
  split; [apply ns_get_set_same |].
  split; [intros name N1 N2; rewrite !ns_get_set_other by congruence; reflexivity |].
  split; [apply length_insert |].
  split; [intros m' Hm'; apply list_lookup_insert_ne; congruence |].
  split; [assumption |].
  split; [apply list_lookup_insert_eq; eapply lookup_lt_Some; eassumption |].
  cbn [m_arch m_compiled m_epochs_trained]. split; [reflexivity |].
  split; [symmetry; assumption | reflexivity].
Qed.

(** A training cell that runs to its end has the effect above. *)
Lemma training_cell_has_effect (w : world) (k k' : kernel) (mn hn rn : string) :
  hn <> mn -> hn <> "input_test" -> hn <> "y_test" -> hn <> rn ->
  exec (training_cell w mn hn rn) k = inr k' -> training_cell_effect mn hn rn k k'.
Proof.
  intros Hn1 Hn2 Hn3 Hn4 H.
  destruct (training_cell_needs w k k' mn hn rn Hn1 Hn2 Hn3 H)
    as (m & mo & c & x & xt & y & yt & b & cb
        & Hm & Hmo & Hc & Hmet & Hx & Hy & Hb & Hcb & Hxt & Hyt).
  rewrite (training_cell_runs w k mn hn rn m mo c x xt y yt b cb) in H by assumption.
  injection H as <-. apply after_training_cell_effect; assumption.
Qed.



(** X6.  A cell that trains a model changes little else.  When cell 2,
    3 or 5 runs to its end, it has trained and evaluated the one model
    its name is bound to, on the arrays and labels the dataset names are
    bound to, with the batch size bound to [BATCH_SIZE] and the callback
    bound to [callback]; the record has grown by the training, the
    evaluation and the printed line, which shows the first two results;
    the cell's history and results names are bound and every other name
    is as before; every other model is as before, and the trained model
    keeps its architecture and its configuration and has as many more
    epochs behind it as the history is long. *)
Theorem training_cells_change_one_model (w : world) (k k' : kernel) :
  (exec (cell2 w) k = inr k' ->
   training_cell_effect "lstm_model" "history_LSTM" "results_LSTM" k k') /\
  (exec (cell3 w) k = inr k' ->
   training_cell_effect "gru_model" "history_GRU" "results_GRU" k k') /\
  (exec (cell5 w) k = inr k' ->
   training_cell_effect "lstm_model_with_attention" "history_" "results_" k k').
Proof.
  split; [| split].
  - apply (training_cell_has_effect w k k' "lstm_model" "history_LSTM" "results_LSTM");
      discriminate.
  - apply (training_cell_has_effect w k k' "gru_model" "history_GRU" "results_GRU");
      discriminate.
  - apply (training_cell_has_effect w k k'
             "lstm_model_with_attention" "history_" "results_"); discriminate.
Qed.

(** ** Cell 4 needs no earlier cell *)

Lemma get_function_ok (name : string) (k : kernel) (f : func) :
  ns_get name (globals k) = Some (VFunction f) -> get_function name k = inr (f, k).
Proof. intros H. typed_read_ok get_function H. Qed.

(** The kernel cell 4 leaves, whatever kernel it starts from. *)
Lemma cell4_runs (k : kernel) :
  exec cell4 k
  = inr (mk_kernel
           (ns_set "lstm_model_with_attention" (VModel (length (models k)))
              (ns_set "build_model2" (VFunction BuildModel2)
                 (ns_set "MAXLEN" (VInt 500)
                    (ns_set "VOCAB_SIZE" (VInt 10000) (globals k)))))
           (models k ++ [mk_model attention_graph (Some config) false 0])
           (callbacks k)
           (log k ++ [EvBuild (length (models k)) attention_graph;
                      EvCompile (length (models k)) config;
                      EvSummary (length (models k)) (summarize attention_graph [])])).
Proof.
  unfold cell4. cbn [exec set globals models callbacks log].
  set (g3 := ns_set "build_model2" _ _).
  set (k3 := mk_kernel g3 _ _ _).
  assert (Hf : ns_get "build_model2" (globals k3) = Some (VFunction BuildModel2))
    by apply ns_get_set_same.
  assert (Hl : ns_get "MAXLEN" (globals k3) = Some (VInt 500)).
  { cbn [globals k3]. unfold g3. rewrite ns_get_set_other by discriminate.
    apply ns_get_set_same. }
  assert (Hv : ns_get "VOCAB_SIZE" (globals k3) = Some (VInt 10000)).
  { cbn [globals k3]. unfold g3. rewrite !ns_get_set_other by discriminate.
    apply ns_get_set_same. }
  rewrite (bind_ok _ _ _ _ _ (get_function_ok _ _ _ Hf)).
  unfold call.
  rewrite (bind_ok _ _ _ _ _ (build_model2_runs k3 LSTM 32 500 10000 Hl Hv)).
  cbn [set with_new_model globals models callbacks log k3].
  match goal with
  | |- context [(get_model _ ≫= _) ?k5'] => set (k5 := k5')
  end.
  assert (Hm : ns_get "lstm_model_with_attention" (globals k5)
               = Some (VModel (length (models k)))) by apply ns_get_set_same.
  rewrite (bind_ok _ _ _ _ _ (get_model_ok _ _ _ Hm)).
  unfold summary_. cbn [models k5]. rewrite lookup_new.
  cbn [globals callbacks log m_arch k5]. rewrite <- app_assoc. reflexivity.
Qed.

(** X7.  Cell 4 binds the two constants [build_model2] reads before it
    calls it, so it runs to its end from every state of the kernel, a
    fresh one included.  It adds one model to the store, the LSTM with
    attention over rows of 500 indices below 10000, compiled, and binds
    it; it leaves every earlier model and the callbacks as they are.
    Apart from the names its import statements bind ([tf], [Input],
    [Embedding], [LSTM], [Dense], [Flatten], [Model]), the only names it
    binds are [VOCAB_SIZE], [MAXLEN], [build_model2] and
    [lstm_model_with_attention]: the dataset, the batch size, the
    callback and the other models' names are as before. *)
Theorem cell4_runs_on_any_kernel (k : kernel) :
  exists k', exec cell4 k = inr k' /\
    models k' = models k ++ [mk_model attention_graph (Some config) false 0] /\
    callbacks k' = callbacks k /\
    log k' = log k ++ [EvBuild (length (models k)) attention_graph;
                       EvCompile (length (models k)) config;
                       EvSummary (length (models k)) (summarize attention_graph [])] /\
    ns_get "VOCAB_SIZE" (globals k') = Some (VInt 10000) /\
    ns_get "MAXLEN" (globals k') = Some (VInt 500) /\
    ns_get "build_model2" (globals k') = Some (VFunction BuildModel2) /\
    ns_get "lstm_model_with_attention" (globals k') = Some (VModel (length (models k))) /\
    (forall name,
       ~ In name ["VOCAB_SIZE"; "MAXLEN"; "build_model2"; "lstm_model_with_attention";
                  "tf"; "Input"; "Embedding"; "LSTM"; "Dense"; "Flatten"; "Model"] ->
       ns_get name (globals k') = ns_get name (globals k)) /\
    (forall name,
       In name ["input_train"; "y_train"; "input_test"; "y_test"; "BATCH_SIZE";
                "callback"; "build_model"; "rnn_model"; "lstm_model"; "gru_model";
                "history"; "results"; "history_LSTM"; "results_LSTM";
                "history_GRU"; "results_GRU"; "history_"; "results_"] ->
       ns_get name (globals k') = ns_get name (globals k)).
Proof.
  eexists. split; [apply cell4_runs |]. cbn [globals models callbacks log].
  do 3 (split; [reflexivity |]).
  split; [rewrite !ns_get_set_other by discriminate; apply ns_get_set_same |].
  split; [rewrite !ns_get_set_other by discriminate; apply ns_get_set_same |].
  split; [rewrite !ns_get_set_other by discriminate; apply ns_get_set_same |].
  split; [apply ns_get_set_same |].
  split.
  - intros name Hn. cbn [In] in Hn.
    rewrite !ns_get_set_other by (intros E; apply Hn; rewrite E; tauto). reflexivity.
  - intros name Hn. cbn [In] in Hn.
    repeat (destruct Hn as [<- | Hn];
            [rewrite !ns_get_set_other by discriminate; reflexivity |]).
    contradiction.
Qed.

(** ** How few epochs a training can run *)

Lemma fit_loop_keeps_history (logs_of : nat -> logs) (refs : list nat) (fuel : nat) :
  forall (epoch : nat) (store : list EarlyStopping) (history : list logs),
    (length history <= length (fr_history (fit_loop logs_of refs fuel epoch store history)))%nat.
Proof.
  induction fuel as [| fuel IH]; intros epoch store history; cbn [fit_loop].
  - cbn [fr_history]. lia.
  - destruct (snd (callbacks_on_epoch_end refs epoch (logs_of epoch) store)).
    + cbn [fr_history]. rewrite length_app. lia.
    + etransitivity; [| apply IH]. rewrite length_app. lia.
Qed.

Lemma fit_loop_step (logs_of : nat -> logs) (refs : list nat) (fuel epoch : nat)
    (store : list EarlyStopping) (history : list logs) :
  fit_loop logs_of refs (S fuel) epoch store history
  = if snd (callbacks_on_epoch_end refs epoch (logs_of epoch) store)
    then mk_fit_result (fst (callbacks_on_epoch_end refs epoch (logs_of epoch) store))
                       (history ++ [logs_of epoch]) true
    else fit_loop logs_of refs fuel (S epoch)
           (fst (callbacks_on_epoch_end refs epoch (logs_of epoch) store))
           (history ++ [logs_of epoch]).
Proof. reflexivity. Qed.

Lemma one_callback_epoch_end (cb : EarlyStopping) (epoch : nat) (l : logs) :
  callbacks_on_epoch_end [0%nat] epoch l [cb]
  = ([fst (on_epoch_end cb epoch l)], snd (on_epoch_end cb epoch l)).
Proof. reflexivity. Qed.

(** The first epoch never ends a training, so with a patience of two no
    training is shorter than two epochs. *)
Lemma train_runs_two_epochs (values : nat -> string -> Q) (release_resets_best : bool)
    (cb : EarlyStopping) :
  watches_val_loss cb ->
  (2 <= length (fr_history
                  (train release_resets_best values config 10 (2 # 10) [0%nat] [cb])))%nat.
Proof.
  intros Hw.
  assert (Hw0 : watches_val_loss (on_train_begin release_resets_best cb)).
  { destruct Hw as (Hm & Hp & Hd). repeat split; assumption. }
  change (train release_resets_best values config 10 (2 # 10) [0%nat] [cb])
    with (fit_loop (epoch_logs values) [0%nat] 10 0
            [on_train_begin release_resets_best cb] []).
  rewrite fit_loop_step, one_callback_epoch_end. cbn [fst snd].
  destruct (on_epoch_end_cases values (on_train_begin release_resets_best cb) 0 Hw0)
    as (_ & Hcase).
  assert (Hgo : snd (on_epoch_end (on_train_begin release_resets_best cb) 0
                       (epoch_logs values 0)) = false).
  { destruct Hcase as [(_ & _ & _ & Hs) | (_ & _ & _ & Hs)]; rewrite Hs;
      [reflexivity | apply andb_false_r]. }
  rewrite Hgo, fit_loop_step.
  match goal with
  | |- context [if ?s then _ else _] => destruct s
  end.
  - cbn [fr_history length app]. lia.
  - match goal with
    | |- context [fit_loop ?l ?r ?f ?e ?s ?h] =>
        pose proof (fit_loop_keeps_history l r f e s h) as Hlen
    end.
    cbn [length app] in Hlen. exact Hlen.
Qed.

(** X8.  No training of the notebook ends after a single epoch: with
    [patience=2] the callback needs two epochs without improvement
    before it stops the model, so every one of the four [fit] calls runs
    at least two of its ten epochs, whatever the losses are and whatever
    the callback holds from the training before. *)
Theorem every_training_runs_two_epochs (w : world) :
  exists k, exec (notebook w) kernel0 = inr k /\
    forall m x y epochs batch_size vs cbs h,
      In (EvFit m x y epochs batch_size vs cbs h) (log k) -> (2 <= length h <= 10)%nat.
Proof.
  exists (final_kernel w). split; [apply notebook_runs |].
  intros m x y epochs batch_size vs cbs h H.
  destruct (all_runs_stop_by_patience w)
    as ((n0 & c0 & Hc0 & Hw0 & Hh0 & Hn0 & _) & (n1 & c1 & Hc1 & Hw1 & Hh1 & Hn1 & _)
        & (n2 & c2 & Hc2 & Hw2 & Hh2 & Hn2 & _) & (n3 & c3 & _ & _ & Hh3 & Hn3 & _)).
  record_cases H; injection H as <- <- <- <- <- <- <- <-; split.
  - unfold run_rnn, run. apply train_runs_two_epochs. repeat split.
  - rewrite Hh0, length_map, length_seq. lia.
  - unfold run_lstm, run. rewrite Hc0. apply train_runs_two_epochs, Hw0.
  - rewrite Hh1, length_map, length_seq. lia.
  - unfold run_gru, run. rewrite Hc1. apply train_runs_two_epochs, Hw1.
  - rewrite Hh2, length_map, length_seq. lia.
  - unfold run_attention, run. rewrite Hc2. apply train_runs_two_epochs, Hw2.
  - rewrite Hh3, length_map, length_seq. lia.
Qed.

(** ** What the shared callback carries from one training to the next *)

(** A training that starts with a callback holding a best value that
    neither of its first two epochs beats, in a release that keeps the
    best value: it is stopped after its second epoch, and the callback
    still holds that value. *)
Lemma train_stops_on_carried_best (values : nat -> string -> Q) (cb : EarlyStopping) (b : Q) :
  watches_val_loss cb -> es_best cb = Some b ->
  (b <= values 0%nat "val_loss")%Q -> (b <= values 1%nat "val_loss")%Q ->
  let r := train false values config 10 (2 # 10) [0%nat] [cb] in
  fr_history r = [epoch_logs values 0; epoch_logs values 1] /\
  fr_stopped r = true /\
  es_best <$> fr_callbacks r = [Some b].
Proof.
  intros Hw Hb H0 H1.
  set (cb0 := on_train_begin false cb).
  assert (Hw0 : watches_val_loss cb0).
  { destruct Hw as (Hm & Hp & Hd). repeat split; assumption. }
  assert (Hb0 : es_best cb0 = Some b) by exact Hb.
  assert (Hwait0 : es_wait cb0 = 0%nat) by reflexivity.
  change (train false values config 10 (2 # 10) [0%nat] [cb])
    with (fit_loop (epoch_logs values) [0%nat] 10 0 [cb0] []).
  cbv zeta. rewrite fit_loop_step, one_callback_epoch_end. cbn [fst snd].
  destruct (on_epoch_end_cases values cb0 0 Hw0) as (Hw1 & Hcase).
  set (step0 := on_epoch_end cb0 0 (epoch_logs values 0)) in *.
  destruct Hcase as [(Hi & _) | (_ & Hb1 & Hwait1 & Hs0)].
  { apply (improvement_below_best cb0 _ b Hw0 Hb0) in Hi. lra. }
  rewrite Hs0, andb_false_r.
  rewrite fit_loop_step, one_callback_epoch_end. cbn [fst snd].
  rewrite Hb0 in Hb1. rewrite Hwait0 in Hwait1.
  destruct (on_epoch_end_cases values (fst step0) 1 Hw1) as (Hw2 & Hcase).
  set (step1 := on_epoch_end (fst step0) 1 (epoch_logs values 1)) in *.
  destruct Hcase as [(Hi & _) | (_ & Hb2 & _ & Hs1)].
  { apply (improvement_below_best (fst step0) _ b Hw1 Hb1) in Hi. lra. }
  rewrite Hs1, Hwait1. cbn [Nat.leb Nat.ltb andb fr_history fr_stopped fr_callbacks app].
  split; [reflexivity |]. split; [reflexivity |].
  cbn [fmap list_fmap]. rewrite Hb2, Hb1. reflexivity.
Qed.

(** X9.  The four trainings share one callback object, and in a release
    of the framework that keeps the callback's best value between
    trainings, a model is measured against the models trained before it:
    if neither of its first two validation losses is below the best
    value the callback holds when its training starts, the training is
    stopped after two epochs, whether or not the model was still
    improving on itself. *)
Theorem carried_best_stops_training (w : world) (m : nat) (b : Q) :
  resets_best w = false ->
  In m [1; 2; 3]%nat ->
  es_best <$> store_before w m = [Some b] ->
  (b <= val_loss w m 0)%Q -> (b <= val_loss w m 1)%Q ->
  exists k, exec (notebook w) kernel0 = inr k /\
    In (m, 2%nat) (epochs_run (log k)) /\
    ns_get "callback" (globals k) = Some (VCallback 0) /\
    (forall m' x y epochs batch_size vs cbs h,
       In (EvFit m' x y epochs batch_size vs cbs h) (log k) -> cbs = [0%nat]).
Proof.
  intros Hr Hm Hb H0 H1.
  exists (final_kernel w). split; [apply notebook_runs |].
  split; [| split; [reflexivity |]].
  - destruct (all_runs_stop_by_patience w)
      as ((n0 & c0 & Hc0 & Hw0 & _) & (n1 & c1 & Hc1 & Hw1 & _)
          & (n2 & c2 & Hc2 & Hw2 & _) & _).
    assert (Hrun : forall cb, store_before w m = [cb] -> watches_val_loss cb ->
                     length (fr_history (run w m (store_before w m))) = 2%nat).
    { intros cb Hs Hw. rewrite Hs in Hb |- *. injection Hb as Hb.
      unfold run. rewrite Hr.
      destruct (train_stops_on_carried_best (epoch_value w m) cb b Hw Hb H0 H1)
        as (Hh & _). rewrite Hh. reflexivity. }
    change (epochs_run (log (final_kernel w)))
      with [(0%nat, length (fr_history (run_rnn w)));
            (1%nat, length (fr_history (run_lstm w)));
            (2%nat, length (fr_history (run_gru w)));
            (3%nat, length (fr_history (run_attention w)))].
    destruct Hm as [<- | [<- | [<- | []]]].
    + right. left. f_equal. exact (Hrun c0 Hc0 Hw0).
    + right. right. left. f_equal. exact (Hrun c1 Hc1 Hw1).
    + right. right. right. left. f_equal. exact (Hrun c2 Hc2 Hw2).
  - intros m' x y epochs batch_size vs cbs h H.
    record_cases H; injection H as <- <- <- <- <- <- <- <-; reflexivity.
Qed.

(** The theorem on the losses the notebook records: the GRU model, the
    third one, against the best value of the LSTM training. *)
Lemma carried_best_stops_training_witness :
  resets_best (recorded_world false) = false /\
  In 2%nat [1; 2; 3]%nat /\
  es_best <$> store_before (recorded_world false) 2 = [Some (3055 # 10000)] /\
  (3055 # 10000 <= val_loss (recorded_world false) 2 0)%Q /\
  (3055 # 10000 <= val_loss (recorded_world false) 2 1)%Q /\
  exists k, exec (notebook (recorded_world false)) kernel0 = inr k /\
    In (2%nat, 2%nat) (epochs_run (log k)) /\
    ns_get "callback" (globals k) = Some (VCallback 0) /\
    (forall m' x y epochs batch_size vs cbs h,
       In (EvFit m' x y epochs batch_size vs cbs h) (log k) -> cbs = [0%nat]).
Proof.
  assert (H1 : resets_best (recorded_world false) = false) by reflexivity.
  assert (H2 : In 2%nat [1; 2; 3]%nat) by (cbn; tauto).
  assert (H3 : es_best <$> store_before (recorded_world false) 2 = [Some (3055 # 10000)])
    by (vm_compute; reflexivity).
  assert (H4 : (3055 # 10000 <= val_loss (recorded_world false) 2 0)%Q)
    by (vm_compute; discriminate).
  assert (H5 : (3055 # 10000 <= val_loss (recorded_world false) 2 1)%Q)
    by (vm_compute; discriminate).
  repeat (split; [assumption |]).
  exact (carried_best_stops_training (recorded_world false) 2 (3055 # 10000) H1 H2 H3 H4 H5).
Defined.

(** X10.  In a release of the framework that resets the callback's best
    value when a training begins, the trainings do not influence one
    another through the shared callback: every training of the
    notebook that ends before its tenth epoch ends on the second of two
    epochs in a row whose validation loss was not below every earlier
    loss of the same training. *)
Theorem early_stops_follow_two_failing_epochs (w : world) :
  resets_best w = true ->
  exists k, exec (notebook w) kernel0 = inr k /\
    forall m x y epochs batch_size vs cbs h,
      In (EvFit m x y epochs batch_size vs cbs h) (log k) ->
      (length h < 10)%nat ->
      exists e, length h = S (S e) /\
                fails_to_improve (val_loss w m) e /\
                fails_to_improve (val_loss w m) (S e).
Proof.
  intros Hr. exists (final_kernel w). split; [apply notebook_runs |].
  exact (early_stop_has_cause_when_best_resets w Hr).
Qed.

(** The theorem on the losses the notebook records, had they been
    produced under such a release. *)
Lemma early_stops_follow_two_failing_epochs_witness :
  resets_best (recorded_world true) = true /\
  exists k, exec (notebook (recorded_world true)) kernel0 = inr k /\
    forall m x y epochs batch_size vs cbs h,
      In (EvFit m x y epochs batch_size vs cbs h) (log k) ->
      (length h < 10)%nat ->
      exists e, length h = S (S e) /\
                fails_to_improve (val_loss (recorded_world true) m) e /\
                fails_to_improve (val_loss (recorded_world true) m) (S e).
Proof.
  split; [reflexivity |].
  exact (early_stops_follow_two_failing_epochs (recorded_world true) eq_refl).
Defined.

(** ** From the stored reviews to the rows the models read *)






(** ** What is left to compare when the run is over *)

(** X12.  No cell overwrites what an earlier cell kept: when the run is
    over, each of the four models is still bound to its name, and its
    history and its results are bound to their own names, holding what
    its one [fit] call and its one [evaluate] call returned.  Each model
    object has been trained exactly once: it has as many epochs behind
    it as its history is long. *)
Theorem every_result_is_kept (w : world) :
  exists k, exec (notebook w) kernel0 = inr k /\
    forall model_name history_name results_name,
      In (model_name, history_name, results_name)
         [("rnn_model", "history", "results");
          ("lstm_model", "history_LSTM", "results_LSTM");
          ("gru_model", "history_GRU", "results_GRU");
          ("lstm_model_with_attention", "history_", "results_")] ->
      exists m mo h r,
        ns_get model_name (globals k) = Some (VModel m) /\
        ns_get history_name (globals k) = Some (VHistory h) /\
        ns_get results_name (globals k) = Some (VResults r) /\
        models k !! m = Some mo /\ m_epochs_trained mo = length h /\
        (forall x y epochs batch_size vs cbs h',
           In (EvFit m x y epochs batch_size vs cbs h') (log k) -> h' = h) /\
        (forall x y r', In (EvEvaluate m x y r') (log k) -> r' = r) /\
        (exists x y epochs batch_size vs cbs,
           In (EvFit m x y epochs batch_size vs cbs h) (log k)) /\
        (exists x y, In (EvEvaluate m x y r) (log k)).
Proof.
  exists (final_kernel w). split; [apply notebook_runs |].
  intros mn hn rn Hin. cbn [In] in Hin.
  destruct Hin as [E | [E | [E | [E | []]]]]; injection E as <- <- <-.
  - exists 0%nat, (trained (stack SimpleRNN) (run_rnn w)),
      (fr_history (run_rnn w)), (results w 0).
    do 5 (split; [reflexivity |]).
    split; [intros x y e b vs cbs h' H; record_cases H; congruence |].
    split; [intros x y r' H; record_cases H; congruence |].
    split; [eexists _, _, _, _, _, _ | eexists _, _];
      cbv [log final_kernel final_log fit_event evaluate_event In]; tauto.
  - exists 1%nat, (trained (stack LSTM) (run_lstm w)),
      (fr_history (run_lstm w)), (results w 1).
    do 5 (split; [reflexivity |]).
    split; [intros x y e b vs cbs h' H; record_cases H; congruence |].
    split; [intros x y r' H; record_cases H; congruence |].
    split; [eexists _, _, _, _, _, _ | eexists _, _];
      cbv [log final_kernel final_log fit_event evaluate_event In]; tauto.
  - exists 2%nat, (trained (stack GRU) (run_gru w)),
      (fr_history (run_gru w)), (results w 2).
    do 5 (split; [reflexivity |]).
    split; [intros x y e b vs cbs h' H; record_cases H; congruence |].
    split; [intros x y r' H; record_cases H; congruence |].
    split; [eexists _, _, _, _, _, _ | eexists _, _];
      cbv [log final_kernel final_log fit_event evaluate_event In]; tauto.
  - exists 3%nat, (trained attention_graph (run_attention w)),
      (fr_history (run_attention w)), (results w 3).
    do 5 (split; [reflexivity |]).
    split; [intros x y e b vs cbs h' H; record_cases H; congruence |].
    split; [intros x y r' H; record_cases H; congruence |].
    split; [eexists _, _, _, _, _, _ | eexists _, _];
      cbv [log final_kernel final_log fit_event evaluate_event In]; tauto.
Qed.

(** ** The training cells in any order *)






(** ** The notebook in a kernel that was used before *)


Ltac act := erewrite bind_ok by reflexivity.








